(** * pkg/download: atomic download-and-decompress to a file

    A shallow embedding of [Download] and [Decompress] from
    [pkg/download/download.go].  The two functions are effectful: they talk
    to the file system, to an HTTP client and to three decompression
    libraries.  The embedding threads an explicit system state (a file-system
    tree and a chronological trace of the external calls) through a small
    state-and-error monad with a [defer] combinator, and takes every outcome
    the program cannot control (I/O errors, the random temp-file suffix, the
    HTTP response) from a [World] record.

    Conventions of the file-system model (Unix semantics, one process): a
    location is the list of names from the root; a path is resolved
    component by component against the working directory ([.] stays, [..]
    goes up); there are no symbolic links; the root directory always
    exists; a directory is created with the requested mode less the bits
    of the process umask; any system call, the unlinking of the temporary
    file included, may be refused by the system. *)

From stdpp Require Import gmap strings list fin_maps.
From Stdlib Require Import String Ascii ZArith DecimalString.
From Stdlib.Strings Require Import Byte.

Open Scope string_scope.
Open Scope Z_scope.

(** ** Go strings *)

(** [strings.HasSuffix]:
    [len(s) >= len(suffix) && s[len(s)-len(suffix):] == suffix]. *)
Definition strings_HasSuffix (s suffix : string) : bool :=
  (String.length suffix <=? String.length s)%nat &&
  String.eqb
    (substring (String.length s - String.length suffix)
               (String.length suffix) s)
    suffix.

(** [os.IsPathSeparator] on Unix. *)
Definition IsPathSeparator (c : ascii) : bool := Ascii.eqb c "/"%char.

(** [true] when no byte of [s] is a path separator. *)
Fixpoint no_separator (s : string) : bool :=
  match s with
  | EmptyString => true
  | String c s' => negb (IsPathSeparator c) && no_separator s'
  end.

(** [filepath.Split]: cut immediately after the final separator.  The Go
    loop scans backwards from the end of the string; the recursion below
    finds the same cut from the front: the directory part of [c :: rest] is
    empty exactly when neither [c] nor any byte of [rest] is a separator. *)
Fixpoint filepath_Split (path : string) : string * string :=
  match path with
  | EmptyString => (EmptyString, EmptyString)
  | String c rest =>
      match filepath_Split rest with
      | (EmptyString, file) =>
          if IsPathSeparator c then (String c EmptyString, file)
          else (EmptyString, String c file)
      | (dir, file) => (String c dir, file)
      end
  end.

(** ** Errors *)

(** An [error] value is either an error produced by a library call or
    [fmt.Errorf("<context>%w", err)], which wraps [err] and prefixes its
    message. *)
Inductive error : Type :=
| ErrBase (msg : string)
| ErrWrap (context : string) (err : error).

Fixpoint Error (e : error) : string :=
  match e with
  | ErrBase msg => msg
  | ErrWrap ctx e' => ctx ++ Error e'
  end.

Definition fmt_Errorf (context : string) (err : error) : error :=
  ErrWrap context err.

Definition is_wrapped (e : error) : bool :=
  match e with ErrBase _ => false | ErrWrap _ _ => true end.

#[global] Instance error_eq_dec : EqDecision error.
Proof. solve_decision. Defined.

Inductive result (A : Type) : Type :=
| Ok (a : A)
| Err (e : error).
Arguments Ok {A} a.
Arguments Err {A} e.

(** ** Readers, URLs and responses *)

(** The denotation of an [io.Reader] read to exhaustion: the bytes it
    yields, then [io.EOF] ([None]) or a read error. *)
Record Reader : Type := mkReader {
  r_data : list byte;
  r_err : option error
}.

(** The fields of [url.URL] the program can observe. *)
Record URL : Type := mkURL {
  Scheme : string;
  Host : string;
  Path : string;
  RawQuery : string
}.

Record Response : Type := mkResponse {
  StatusCode : Z;
  Body : Reader
}.

(** [*http.Client]: what [client.Do] answers to a GET request for a URL. *)
Record Client : Type := mkClient {
  Do : URL -> result Response
}.

(** ** The file system *)

Inductive node : Type :=
| Directory (perm : Z)
| Regular (content : list byte).

(** A location is the list of names from the root. *)
Abbreviation loc := (list string).
Abbreviation FS := (gmap (list string) node).

Definition is_dir (fs : FS) (l : loc) : bool :=
  match l with
  | [] => true
  | _ => match fs !! l with Some (Directory _) => true | _ => false end
  end.

(** One component of a path applied to the location reached so far. *)
Definition step (stack : loc) (name : string) : loc :=
  if String.eqb name EmptyString then stack
  else if String.eqb name "." then stack
  else if String.eqb name ".." then removelast stack
  else stack ++ [name].

(** The components of a path: the pieces between separators ([cur] is the
    piece being read). *)
Fixpoint components_from (cur : string) (s : string) : list string :=
  match s with
  | EmptyString => [cur]
  | String c s' =>
      if IsPathSeparator c then cur :: components_from EmptyString s'
      else components_from (cur ++ String c EmptyString) s'
  end.

Definition components (s : string) : list string :=
  components_from EmptyString s.

Definition is_abs (s : string) : bool :=
  match s with
  | String c _ => IsPathSeparator c
  | EmptyString => false
  end.

(** Where the walk along a path starts. *)
Definition origin (cwd : loc) (path : string) : loc :=
  if is_abs path then [] else cwd.

Definition resolve (cwd : loc) (path : string) : loc :=
  fold_left step (components path) (origin cwd path).

(** ** System state, the outside world, and the monad *)

(** [*os.File]: the program only uses the name of the file it holds. *)
Record os_File : Type := mkFile { Name : string }.

(** External calls, in the order the program makes them. *)
Inductive event : Type :=
| EvMkdirAll (dir : string) (perm : Z)
| EvTempFile (dir pattern : string)
| EvNewRequest (method : string) (u : URL)
| EvDo (u : URL)
| EvGzipNewReader (src : Reader)
| EvBzip2NewReader (src : Reader)
| EvXzNewReader (src : Reader)
| EvCopy (dst : string) (src : Reader)
| EvFileClose (name : string)
| EvRename (oldpath newpath : string)
| EvRemove (name : string)
| EvBodyClose.

Record Sys : Type := mkSys {
  fs : FS;
  trace : list event
}.

(** The frame of one call: the system state and the local variable
    [moved]. *)
Record Frame : Type := mkFrame {
  sys : Sys;
  moved : bool
}.

(** Everything the program cannot control. *)
Record World : Type := mkWorld {
  w_cwd : loc;                              (* working directory *)
  w_TempDir : string;                       (* os.TempDir() *)
  w_umask : Z;                              (* the process umask *)
  w_mkdir_err : loc -> option error;        (* mkdir(2) refused at a location *)
  w_rand : N;                               (* the random temp-file number *)
  w_createtemp_err : option error;          (* open(2) refused: unwritable, full *)
  w_newRequest_err : URL -> option error;   (* u.String() does not parse *)
  w_write_err : option (nat * error);       (* write(2) fails after n bytes *)
  w_close_err : option error;               (* close(2) reports a deferred error *)
  w_rename_err : option error;              (* rename(2) refused *)
  w_remove_err : option error;              (* unlink(2) refused *)
  gzip_NewReader : Reader -> result Reader;
  bzip2_NewReader : Reader -> Reader;
  xz_NewReader : Reader -> result Reader
}.

Definition M (A : Type) : Type := Frame -> result A * Frame.

Definition ret {A : Type} (a : A) : M A := fun fr => (Ok a, fr).

(** [x, err := m; if err != nil { return err }; k x] *)
Definition bind {A B : Type} (m : M A) (k : A -> M B) : M B :=
  fun fr =>
    match m fr with
    | (Ok a, fr') => k a fr'
    | (Err e, fr') => (Err e, fr')
    end.

(** [x, err := m; if err != nil { return fmt.Errorf(context+"%w", err) }] *)
Definition wrapping {A : Type} (context : string) (m : M A) : M A :=
  fun fr =>
    match m fr with
    | (Ok a, fr') => (Ok a, fr')
    | (Err e, fr') => (Err (fmt_Errorf context e), fr')
    end.

(** [defer d(); body]: [d] runs when the function returns, whatever [body]
    returned, and its own result is dropped.  Nested [defer]s run last-in
    first-out. *)
Definition defer {A : Type} (d : Frame -> Frame) (body : M A) : M A :=
  fun fr => let '(r, fr') := body fr in (r, d fr').

Declare Scope go_scope.
Delimit Scope go_scope with go.
Notation "x <- m ;; k" := (bind m (fun x => k))
  (at level 100, m at next level, right associativity) : go_scope.
Notation "m ;;; k" := (bind m (fun _ => k))
  (at level 100, right associativity) : go_scope.

(** A call that logs [e] and then acts on the file system. *)
Definition syscall {A : Type} (e : event) (f : FS -> result A * FS) : M A :=
  fun fr =>
    let '(r, f') := f (fs (sys fr)) in
    (r, mkFrame (mkSys f' (trace (sys fr) ++ [e])%list) (moved fr)).

Definition set_moved (b : bool) : M unit :=
  fun fr => (Ok tt, mkFrame (sys fr) b).

Definition ignore {A : Type} (m : M A) : Frame -> Frame :=
  fun fr => snd (m fr).

(** ** Library calls *)

Definition ENOENT : error := ErrBase "no such file or directory".
Definition ENOTDIR : error := ErrBase "not a directory".
Definition EEXIST : error := ErrBase "file exists".
Definition EISDIR : error := ErrBase "is a directory".
Definition errPatternHasSeparator : error :=
  ErrBase "pattern contains path separator".

(** The mode a directory gets when [mkdir(2)] is asked for [perm]: the
    bits of the umask are cleared. *)
Definition masked (w : World) (perm : Z) : Z := Z.ldiff perm (w_umask w).

(** Walk along [names] from the directory [cur], creating every directory
    that is missing on the way; stop at the first refusal. *)
Fixpoint mkdir_walk (w : World) (perm : Z) (cur : loc) (names : list string)
         (f : FS) : result unit * FS :=
  match names with
  | [] => (Ok tt, f)
  | name :: rest =>
      if String.eqb name EmptyString then mkdir_walk w perm cur rest f
      else if String.eqb name "." then mkdir_walk w perm cur rest f
      else if String.eqb name ".." then
        mkdir_walk w perm (removelast cur) rest f
      else
        let l := (cur ++ [name])%list in
        match f !! l with
        | Some (Directory _) => mkdir_walk w perm l rest f
        | Some (Regular _) => (Err ENOTDIR, f)
        | None =>
            match w_mkdir_err w l with
            | Some e => (Err e, f)
            | None =>
                mkdir_walk w perm l rest (<[l := Directory (masked w perm)]> f)
            end
        end
  end.

Definition mkdir_all (w : World) (path : string) (perm : Z) (f : FS)
  : result unit * FS :=
  mkdir_walk w perm (origin (w_cwd w) path) (components path) f.

(** [os.MkdirAll(path, perm)] *)
Definition os_MkdirAll (w : World) (path : string) (perm : Z) : M unit :=
  syscall (EvMkdirAll path perm) (mkdir_all w path perm).

(** The pattern cut at its last ["*"], if it has one. *)
Fixpoint cut_last_star (s : string) : option (string * string) :=
  match s with
  | EmptyString => None
  | String c rest =>
      match cut_last_star rest with
      | Some (p, q) => Some (String c p, q)
      | None => if Ascii.eqb c "*"%char then Some (EmptyString, rest) else None
      end
  end.

Definition prefixAndSuffix (pattern : string) : result (string * string) :=
  if no_separator pattern then
    match cut_last_star pattern with
    | Some ps => Ok ps
    | None => Ok (pattern, EmptyString)
    end
  else Err errPatternHasSeparator.

Definition ends_with_separator (s : string) : bool :=
  strings_HasSuffix s "/".

Definition joinPath (dir name : string) : string :=
  if ends_with_separator dir then dir ++ name else dir ++ "/" ++ name.

(** [nextRandom]: a 32-bit number printed in decimal. *)
Definition nextRandom (w : World) : string :=
  NilZero.string_of_uint (N.to_uint (w_rand w mod 2 ^ 32)%N).

(** [os.OpenFile(name, O_RDWR|O_CREATE|O_EXCL, 0600)] *)
Definition open_excl (w : World) (name : string) (f : FS)
  : result os_File * FS :=
  let l := resolve (w_cwd w) name in
  match w_createtemp_err w with
  | Some e => (Err e, f)
  | None =>
      if is_dir f l then (Err EEXIST, f)
      else if negb (is_dir f (removelast l)) then (Err ENOENT, f)
      else
        match f !! l with
        | Some _ => (Err EEXIST, f)
        | None => (Ok (mkFile name), <[l := Regular []]> f)
        end
  end.

(** [os.CreateTemp(dir, pattern)]: an empty [dir] means the default
    directory for temporary files. *)
Definition create_temp (w : World) (dir pattern : string) (f : FS)
  : result os_File * FS :=
  let dir := if String.eqb dir EmptyString then w_TempDir w else dir in
  match prefixAndSuffix pattern with
  | Err e => (Err e, f)
  | Ok (prefix, suffix) =>
      open_excl w (joinPath dir prefix ++ nextRandom w ++ suffix) f
  end.

(** [ioutil.TempFile(dir, pattern)] is [os.CreateTemp(dir, pattern)]. *)
Definition ioutil_TempFile (w : World) (dir pattern : string) : M os_File :=
  syscall (EvTempFile dir pattern) (create_temp w dir pattern).

Definition append_bytes (bs : list byte) (n : node) : node :=
  match n with
  | Regular c => Regular (c ++ bs)%list
  | Directory p => Directory p
  end.

(** What one streaming copy out of [src] achieves: its result and the bytes
    that reached the destination.  Every byte of [src] is written until
    [src] is exhausted, a read fails or a write fails. *)
Definition copy_result (w : World) (src : Reader) : result nat * list byte :=
  let all :=
    (match r_err src with
     | Some e => Err e
     | None => Ok (List.length (r_data src))
     end, r_data src) in
  match w_write_err w with
  | Some (n, e) =>
      if (n <? List.length (r_data src))%nat
      then (Err e, take n (r_data src))
      else all
  | None => all
  end.

(** [io.Copy(dst, src)] *)
Definition io_Copy (w : World) (dst : os_File) (src : Reader) : M nat :=
  syscall (EvCopy (Name dst) src) (fun f =>
    let '(r, written) := copy_result w src in
    (r, alter (append_bytes written) (resolve (w_cwd w) (Name dst)) f)).

(** [f.Close()] *)
Definition File_Close (w : World) (file : os_File) : M unit :=
  syscall (EvFileClose (Name file)) (fun f =>
    (match w_close_err w with Some e => Err e | None => Ok tt end, f)).

(** [os.Remove(name)].  Only the removal of regular files is modelled; the
    system may refuse it, and the file then stays. *)
Definition remove_file (w : World) (name : string) (f : FS)
  : result unit * FS :=
  let l := resolve (w_cwd w) name in
  match f !! l with
  | Some (Regular _) =>
      match w_remove_err w with
      | Some e => (Err e, f)
      | None => (Ok tt, delete l f)
      end
  | Some (Directory _) => (Err EISDIR, f)
  | None => (Err ENOENT, f)
  end.

Definition os_Remove (w : World) (name : string) : M unit :=
  syscall (EvRemove name) (remove_file w name).

(** [os.Rename(oldpath, newpath)] of a regular file: atomic, replaces a
    regular file at [newpath], refuses a directory there. *)
Definition rename_file (w : World) (oldpath newpath : string) (f : FS)
  : result unit * FS :=
  let src := resolve (w_cwd w) oldpath in
  let dst := resolve (w_cwd w) newpath in
  match f !! src with
  | Some (Regular c) =>
      if is_dir f dst then (Err EISDIR, f)
      else if negb (is_dir f (removelast dst)) then (Err ENOENT, f)
      else
        match w_rename_err w with
        | Some e => (Err e, f)
        | None => (Ok tt, <[dst := Regular c]> (delete src f))
        end
  | _ => (Err ENOENT, f)
  end.

Definition os_Rename (w : World) (oldpath newpath : string) : M unit :=
  syscall (EvRename oldpath newpath) (rename_file w oldpath newpath).

(** A library call that does not touch the file system. *)
Definition call {A : Type} (e : event) (r : result A) : M A :=
  syscall e (fun f => (r, f)).

(** [http.NewRequest(method, u.String(), nil)]; the request is identified
    with the URL it is for. *)
Definition http_NewRequest (w : World) (method : string) (u : URL) : M URL :=
  call (EvNewRequest method u)
    (match w_newRequest_err w u with Some e => Err e | None => Ok u end).

(** [client.Do(req)] *)
Definition client_Do (client : Client) (req : URL) : M Response :=
  call (EvDo req) (Do client req).

(** [resp.Body.Close()] *)
Definition Body_Close (resp : Response) : M unit :=
  call EvBodyClose (Ok tt).

Definition http_MethodGet : string := "GET".

(** The octal literal [0o755]: rwxr-xr-x. *)
Definition mode_0o755 : Z := 7 * 64 + 5 * 8 + 5.

(** ** The program *)

Open Scope go_scope.

Definition Download (w : World) (client : Client) (u : URL) (path : string)
  : M unit :=
  let '(dir, file) := filepath_Split path in
  let dir := if String.eqb dir EmptyString then "." else dir in
  os_MkdirAll w dir mode_0o755 ;;;
  tmpFile <- wrapping "create temporary file: " (ioutil_TempFile w dir file) ;;
  defer (ignore (File_Close w tmpFile)) (
  set_moved false ;;;
  defer (fun fr =>
           if negb (moved fr) then ignore (os_Remove w (Name tmpFile)) fr
           else fr) (
  req <- http_NewRequest w http_MethodGet u ;;
  resp <- client_Do client req ;;
  defer (ignore (Body_Close resp)) (
  r <- (if strings_HasSuffix (Path u) "gz" then
          call (EvGzipNewReader (Body resp)) (gzip_NewReader w (Body resp))
        else if strings_HasSuffix (Path u) "bz2" then
          call (EvBzip2NewReader (Body resp))
               (Ok (bzip2_NewReader w (Body resp)))
        else if strings_HasSuffix (Path u) "xz" then
          call (EvXzNewReader (Body resp)) (xz_NewReader w (Body resp))
        else ret (Body resp)) ;;
  io_Copy w tmpFile r ;;;
  wrapping "write and close temporary file: " (File_Close w tmpFile) ;;;
  os_Rename w (Name tmpFile) path ;;;
  set_moved true ;;;
  ret tt))).

Definition Decompress (w : World) (client : Client) (u : URL) (path : string)
  : M unit :=
  let '(dir, file) := filepath_Split path in
  let dir := if String.eqb dir EmptyString then "." else dir in
  os_MkdirAll w dir mode_0o755 ;;;
  tmpFile <- wrapping "create temporary file: " (ioutil_TempFile w dir file) ;;
  defer (ignore (File_Close w tmpFile)) (
  set_moved false ;;;
  defer (fun fr =>
           if negb (moved fr) then ignore (os_Remove w (Name tmpFile)) fr
           else fr) (
  req <- http_NewRequest w http_MethodGet u ;;
  resp <- client_Do client req ;;
  defer (ignore (Body_Close resp)) (
  r <- (if strings_HasSuffix (Path u) "gz" then
          call (EvGzipNewReader (Body resp)) (gzip_NewReader w (Body resp))
        else if strings_HasSuffix (Path u) "bz2" then
          call (EvBzip2NewReader (Body resp))
               (Ok (bzip2_NewReader w (Body resp)))
        else if strings_HasSuffix (Path u) "xz" then
          call (EvXzNewReader (Body resp)) (xz_NewReader w (Body resp))
        else ret (Body resp)) ;;
  io_Copy w tmpFile r ;;;
  wrapping "write and close temporary file: " (File_Close w tmpFile) ;;;
  os_Rename w (Name tmpFile) path ;;;
  set_moved true ;;;
  ret tt))).

Close Scope go_scope.

(** ** Vocabulary of the statements *)

(** The directory handed to [os.MkdirAll] and [ioutil.TempFile], and the
    base name handed to [ioutil.TempFile]. *)
Definition dir_of (path : string) : string :=
  let d := fst (filepath_Split path) in
  if String.eqb d EmptyString then "." else d.

Definition base_of (path : string) : string := snd (filepath_Split path).

(** The location a path names. *)
Definition at_path (w : World) (path : string) : loc :=
  resolve (w_cwd w) path.

(** The four decoders, and which one a URL path selects: the first of
    ["gz"], ["bz2"], ["xz"] the path ends in, none otherwise. *)
Inductive decoder : Type := Gzip | Bzip2 | Xz | Identity.

(** [s] ends in [suffix]: a plain trailing-substring test. *)
Definition ends_in (s suffix : string) : Prop :=
  exists front : string, s = front ++ suffix.

Definition selected (p : string) (d : decoder) : Prop :=
  match d with
  | Gzip => ends_in p "gz"
  | Bzip2 => ~ ends_in p "gz" /\ ends_in p "bz2"
  | Xz => ~ ends_in p "gz" /\ ~ ends_in p "bz2" /\ ends_in p "xz"
  | Identity => ~ ends_in p "gz" /\ ~ ends_in p "bz2" /\ ~ ends_in p "xz"
  end.

(** Wrapping a response body in a decoder: the library call made and the
    reader obtained. *)
Definition open_reader (w : World) (d : decoder) (body : Reader)
  : list event * result Reader :=
  match d with
  | Gzip => ([EvGzipNewReader body], gzip_NewReader w body)
  | Bzip2 => ([EvBzip2NewReader body], Ok (bzip2_NewReader w body))
  | Xz => ([EvXzNewReader body], xz_NewReader w body)
  | Identity => ([], Ok body)
  end.

(** The client that answers like [client] but with status [code]. *)
Definition with_status (code : Z) (client : Client) : Client :=
  mkClient (fun u =>
    match Do client u with
    | Ok resp => Ok (mkResponse code (Body resp))
    | Err e => Err e
    end).


(** The directories [os.MkdirAll] passes on its way along [names] from
    [cur], in that order: those it makes sure exist. *)
Fixpoint walk (cur : loc) (names : list string) : list loc :=
  match names with
  | [] => []
  | name :: rest =>
      if String.eqb name EmptyString then walk cur rest
      else if String.eqb name "." then walk cur rest
      else if String.eqb name ".." then walk (removelast cur) rest
      else (cur ++ [name])%list :: walk (cur ++ [name])%list rest
  end.

Definition ancestors (w : World) (dir : string) : list loc :=
  walk (origin (w_cwd w) dir) (components dir).

(** Decimal digits, and the base name of a temp file made from the two
    halves of a pattern. *)
Definition is_digit (c : ascii) : bool :=
  (48 <=? nat_of_ascii c)%nat && (nat_of_ascii c <=? 57)%nat.

Fixpoint digits (s : string) : bool :=
  match s with
  | EmptyString => true
  | String c s' => is_digit c && digits s'
  end.

Fixpoint mem (c : ascii) (s : string) : bool :=
  match s with
  | EmptyString => false
  | String x s' => Ascii.eqb x c || mem c s'
  end.

Definition temp_base (w : World) (p s : string) : string :=
  p ++ nextRandom w ++ s.

(** The optional decompression step read as a function: the library calls
    it makes and the reader it hands to the copy. *)
Definition decoder_stage (w : World) (u : URL) (body : Reader)
  : list event * result Reader :=
  if strings_HasSuffix (Path u) "gz" then
    ([EvGzipNewReader body], gzip_NewReader w body)
  else if strings_HasSuffix (Path u) "bz2" then
    ([EvBzip2NewReader body], Ok (bzip2_NewReader w body))
  else if strings_HasSuffix (Path u) "xz" then
    ([EvXzNewReader body], xz_NewReader w body)
  else ([], Ok body).

(** The kinds of external call, without their arguments. *)
Inductive kind : Type :=
| KMkdirAll | KTempFile | KNewRequest | KDo | KNewReader | KCopy
| KFileClose | KRename | KRemove | KBodyClose.

#[global] Instance kind_eq_dec : EqDecision kind.
Proof. solve_decision. Defined.

Definition kind_of (e : event) : kind :=
  match e with
  | EvMkdirAll _ _ => KMkdirAll
  | EvTempFile _ _ => KTempFile
  | EvNewRequest _ _ => KNewRequest
  | EvDo _ => KDo
  | EvGzipNewReader _ | EvBzip2NewReader _ | EvXzNewReader _ => KNewReader
  | EvCopy _ _ => KCopy
  | EvFileClose _ => KFileClose
  | EvRename _ _ => KRename
  | EvRemove _ => KRemove
  | EvBodyClose => KBodyClose
  end.

(** How often a kind of call occurs in a list of events. *)
Definition occurrences (k : kind) (evs : list event) : nat :=
  List.length (filter (fun e => kind_of e = k) evs).

(** The stages of the pipeline. *)
Inductive stage : Type :=
| DirectoryCreation | TempFileCreation | RequestConstruction | Transport
| DecompressionInit | Copy | Finalize | Rename.

(** The stage a kind of call belongs to; closing and removing are cleanup. *)
Definition stage_of_kind (k : kind) : option stage :=
  match k with
  | KMkdirAll => Some DirectoryCreation
  | KTempFile => Some TempFileCreation
  | KNewRequest => Some RequestConstruction
  | KDo => Some Transport
  | KNewReader => Some DecompressionInit
  | KCopy => Some Copy
  | KRename => Some Rename
  | KFileClose | KRemove | KBodyClose => None
  end.

(** The position of a stage in the pipeline. *)
Definition rank (s : stage) : nat :=
  match s with
  | DirectoryCreation => 0
  | TempFileCreation => 1
  | RequestConstruction => 2
  | Transport => 3
  | DecompressionInit => 4
  | Copy => 5
  | Finalize => 6
  | Rename => 7
  end.

(** ** The exit paths of the program *)

Section Run.
Variables (w : World) (client : Client) (u : URL) (path : string).
Variable (fr : Frame).

(** The frame the call returns in: file system [f], the events [evs]
    appended to the trace, and [moved] holding [m]. *)
Definition leave (f : FS) (evs : list event) (m : bool) : Frame :=
  mkFrame (mkSys f (trace (sys fr) ++ evs)) m.

(** Directory preparation and temp-file creation both went through:
    [f1] is the file system after [os.MkdirAll], [tmp] the file made. *)
Definition acquired (f1 : FS) (tmp : os_File) : Prop :=
  mkdir_all w (dir_of path) mode_0o755 (fs (sys fr)) = (Ok tt, f1) /\
  create_temp w (dir_of path) (base_of path) f1 =
    (Ok tmp, <[at_path w (Name tmp) := Regular []]> f1) /\
  f1 !! at_path w (Name tmp) = None.

(** What the cleanup guard leaves when the temporary file holds [c]:
    [os.Remove] unlinks the file unless the system refuses, and its result
    is dropped. *)
Definition cleaned (f1 : FS) (tmp : os_File) (c : list byte) : FS :=
  match w_remove_err w with
  | None => f1
  | Some _ => <[at_path w (Name tmp) := Regular c]> f1
  end.

(** The calls made up to and including [client.Do]. *)
Definition opening : list event :=
  [EvMkdirAll (dir_of path) mode_0o755;
   EvTempFile (dir_of path) (base_of path);
   EvNewRequest http_MethodGet u;
   EvDo u].

(** One constructor per [return] statement of the function. *)
Inductive Run : stage -> result unit -> Frame -> Prop :=
| Run_mkdir e f1 :
    mkdir_all w (dir_of path) mode_0o755 (fs (sys fr)) = (Err e, f1) ->
    Run DirectoryCreation (Err e)
      (leave f1 [EvMkdirAll (dir_of path) mode_0o755] (moved fr))
| Run_temp e f1 :
    mkdir_all w (dir_of path) mode_0o755 (fs (sys fr)) = (Ok tt, f1) ->
    create_temp w (dir_of path) (base_of path) f1 = (Err e, f1) ->
    Run TempFileCreation (Err (fmt_Errorf "create temporary file: " e))
      (leave f1 (take 2 opening) (moved fr))
| Run_request e f1 tmp :
    acquired f1 tmp ->
    w_newRequest_err w u = Some e ->
    Run RequestConstruction (Err e)
      (leave (cleaned f1 tmp []) (take 3 opening ++
                 [EvRemove (Name tmp); EvFileClose (Name tmp)]) false)
| Run_transport e f1 tmp :
    acquired f1 tmp ->
    w_newRequest_err w u = None ->
    Do client u = Err e ->
    Run Transport (Err e)
      (leave (cleaned f1 tmp []) (opening ++
                 [EvRemove (Name tmp); EvFileClose (Name tmp)]) false)
| Run_decoder e f1 tmp resp evs :
    acquired f1 tmp ->
    w_newRequest_err w u = None ->
    Do client u = Ok resp ->
    decoder_stage w u (Body resp) = (evs, Err e) ->
    Run DecompressionInit (Err e)
      (leave (cleaned f1 tmp []) (opening ++ evs ++
                 [EvBodyClose; EvRemove (Name tmp); EvFileClose (Name tmp)])
             false)
| Run_copy e f1 tmp resp evs r written :
    acquired f1 tmp ->
    w_newRequest_err w u = None ->
    Do client u = Ok resp ->
    decoder_stage w u (Body resp) = (evs, Ok r) ->
    copy_result w r = (Err e, written) ->
    Run Copy (Err e)
      (leave (cleaned f1 tmp written) (opening ++ evs ++
                 [EvCopy (Name tmp) r;
                  EvBodyClose; EvRemove (Name tmp); EvFileClose (Name tmp)])
             false)
| Run_close e f1 tmp resp evs r :
    acquired f1 tmp ->
    w_newRequest_err w u = None ->
    Do client u = Ok resp ->
    decoder_stage w u (Body resp) = (evs, Ok r) ->
    copy_result w r = (Ok (List.length (r_data r)), r_data r) ->
    r_err r = None ->
    w_close_err w = Some e ->
    Run Finalize (Err (fmt_Errorf "write and close temporary file: " e))
      (leave (cleaned f1 tmp (r_data r)) (opening ++ evs ++
                 [EvCopy (Name tmp) r; EvFileClose (Name tmp);
                  EvBodyClose; EvRemove (Name tmp); EvFileClose (Name tmp)])
             false)
| Run_rename e f1 tmp resp evs r :
    acquired f1 tmp ->
    w_newRequest_err w u = None ->
    Do client u = Ok resp ->
    decoder_stage w u (Body resp) = (evs, Ok r) ->
    copy_result w r = (Ok (List.length (r_data r)), r_data r) ->
    r_err r = None ->
    w_close_err w = None ->
    rename_file w (Name tmp) path
      (<[at_path w (Name tmp) := Regular (r_data r)]> f1) =
      (Err e, <[at_path w (Name tmp) := Regular (r_data r)]> f1) ->
    Run Rename (Err e)
      (leave (cleaned f1 tmp (r_data r)) (opening ++ evs ++
                 [EvCopy (Name tmp) r; EvFileClose (Name tmp);
                  EvRename (Name tmp) path;
                  EvBodyClose; EvRemove (Name tmp); EvFileClose (Name tmp)])
             false).

(** The one path on which the function returns [nil]. *)
Inductive Done : Frame -> Prop :=
| Done_ok f1 tmp resp evs r :
    acquired f1 tmp ->
    w_newRequest_err w u = None ->
    Do client u = Ok resp ->
    decoder_stage w u (Body resp) = (evs, Ok r) ->
    copy_result w r = (Ok (List.length (r_data r)), r_data r) ->
    r_err r = None ->
    w_close_err w = None ->
    rename_file w (Name tmp) path
      (<[at_path w (Name tmp) := Regular (r_data r)]> f1) =
      (Ok tt, <[at_path w path := Regular (r_data r)]> f1) ->
    is_dir f1 (at_path w path) = false ->
    at_path w (Name tmp) <> at_path w path ->
    Done
      (leave (<[at_path w path := Regular (r_data r)]> f1)
             (opening ++ evs ++
              [EvCopy (Name tmp) r; EvFileClose (Name tmp);
               EvRename (Name tmp) path;
               EvBodyClose; EvFileClose (Name tmp)])
             true).
End Run.

(** ** Sample worlds

    Worlds in which few system calls are refused, with stand-ins for the
    three decompression libraries.  The one for gzip reads the container as
    [compress/gzip] does, for streams without optional header fields that
    hold a single stored block; the ones for bzip2 and xz recognise a
    two-byte magic number and yield the bytes after it. *)

Definition io_EOF : error := ErrBase "EOF".
Definition io_ErrUnexpectedEOF : error := ErrBase "unexpected EOF".

(** What reading a stream that stopped too early reports: the error of the
    source, or [io.ErrUnexpectedEOF] if the source just ended. *)
Definition cut_short (eof : option error) : error :=
  match eof with
  | Some e => e
  | None => io_ErrUnexpectedEOF
  end.

(** The deflate stream after the gzip header: one final stored block
    (a byte [0x01], the length and its complement in two bytes each, the
    data), then the 8-byte trailer, whose checksum is not verified.  What
    was read before the stream stopped is yielded before the error. *)
Definition sample_inflate (body : list byte) (eof : option error) : Reader :=
  match body with
  | x01 :: lo :: hi :: _ :: _ :: rest =>
      let len := (Byte.to_nat lo + 256 * Byte.to_nat hi)%nat in
      if (len + 8 <=? List.length rest)%nat
      then mkReader (take len rest) None
      else mkReader (take len rest) (Some (cut_short eof))
  | _ => mkReader [] (Some (cut_short eof))
  end.

(** [gzip.NewReader] reads the 10-byte header: fewer bytes are an error of
    the source, [io.EOF] (none) or [io.ErrUnexpectedEOF]; then the two
    magic bytes and the compression method are checked. *)
Definition sample_gzip (src : Reader) : result Reader :=
  match r_data src with
  | id1 :: id2 :: cm :: flg :: _ :: _ :: _ :: _ :: _ :: _ :: body =>
      if Byte.eqb id1 x1f && Byte.eqb id2 x8b && Byte.eqb cm x08
         && Byte.eqb flg x00
      then Ok (sample_inflate body (r_err src))
      else Err (ErrBase "gzip: invalid header")
  | [] => Err (match r_err src with Some e => e | None => io_EOF end)
  | _ => Err (cut_short (r_err src))
  end.

Definition sample_bzip2 (src : Reader) : Reader :=
  match r_data src with
  | x42 :: x5a :: rest => mkReader rest (r_err src)
  | _ => mkReader [] (Some (ErrBase "bzip2 data invalid: bad magic value"))
  end.

Definition sample_xz (src : Reader) : result Reader :=
  match r_data src with
  | xfd :: x37 :: rest => Ok (mkReader rest (r_err src))
  | _ => Err (ErrBase "xz: invalid header magic bytes")
  end.

(** The usual umask, [0o022]. *)
Definition umask_022 : Z := 2 * 8 + 2.

(** The working directory is [/home/u] and the umask [0o022]; [rand] is
    the number drawn for the temporary file, [close_err] what closing a file
    reports and [remove_err] what unlinking one reports. *)
Definition world_with (rand : N) (close_err remove_err : option error)
  : World :=
  {| w_cwd := ["home"; "u"];
     w_TempDir := "/tmp";
     w_umask := umask_022;
     w_mkdir_err := fun _ => None;
     w_rand := rand;
     w_createtemp_err := None;
     w_newRequest_err := fun _ => None;
     w_write_err := None;
     w_close_err := close_err;
     w_rename_err := None;
     w_remove_err := remove_err;
     gzip_NewReader := sample_gzip;
     bzip2_NewReader := sample_bzip2;
     xz_NewReader := sample_xz |}.

Definition sample_world : World := world_with 123456789 None None.

(** A world in which the disk fills up before the last block is flushed. *)
Definition full_disk_world : World :=
  world_with 123456789 (Some (ErrBase "no space left on device")) None.

(** A world in which the temporary file cannot be unlinked, as on a system
    that refuses to unlink a file that is still open. *)
Definition busy_world : World :=
  world_with 123456789 None (Some (ErrBase "operation not permitted")).

(** The world of a later call: another number is drawn. *)
Definition later_world : World := world_with 987654321 None None.

Definition sample_fs : FS :=
  <[ ["home"; "u"] := Directory mode_0o755 ]>
    (<[ ["home"] := Directory mode_0o755 ]> ∅).

Definition sample_frame : Frame := mkFrame (mkSys sample_fs []) false.

Definition hello : list byte := [x68; x65; x6c; x6c; x6f].

Definition sample_url (p : string) : URL :=
  {| Scheme := "http"; Host := "example.test"; Path := p;
     RawQuery := EmptyString |}.

(** Clients: one answers [code] with the given body, one cannot connect. *)
Definition answering (code : Z) (body : Reader) : Client :=
  mkClient (fun _ => Ok (mkResponse code body)).

Definition unreachable : Client :=
  mkClient (fun _ => Err (ErrBase "connection refused")).

(** The gzip stream of [hello]: the header, [hello] in a stored block,
    its CRC-32 and its length. *)
Definition gzip_header : list byte :=
  [x1f; x8b; x08; x00; x00; x00; x00; x00; x00; xff].

Definition hello_gz : list byte :=
  gzip_header ++ [x01; x05; x00; xfa; xff] ++ hello
              ++ [x86; xa6; x10; x36; x05; x00; x00; x00].

(** A gzip download of [hello] into a directory that does not exist yet. *)
Definition gzip_client : Client := answering 200 (mkReader hello_gz None).

Definition C1_sample : result unit * Frame :=
  Download sample_world gzip_client (sample_url "/data.gz")
           "./out/data.txt" sample_frame.

(** The same destination directory named as the destination itself, with a
    server that cannot be reached. *)
Definition C2_sample : result unit * Frame :=
  Download sample_world unreachable (sample_url "/data.gz")
           "out/" sample_frame.

(** A gzip stream cut off inside its header, and one cut off after it,
    inside the stored block. *)
Definition cut_in_header : Client := answering 200 (mkReader [x1f] None).

Definition cut_after_header : Client :=
  answering 200
    (mkReader (gzip_header ++ [x01; x05; x00; xfa; xff; x68; x65]) None).

Definition C9_sample_init : result unit * Frame :=
  Download sample_world cut_in_header (sample_url "/data.gz")
           "data.txt" sample_frame.

Definition C9_sample_copy : result unit * Frame :=
  Download sample_world cut_after_header (sample_url "/data.gz")
           "data.txt" sample_frame.

(** A download that fails when the temporary file is closed. *)
Definition C3_sample : result unit * Frame :=
  Download full_disk_world gzip_client (sample_url "/data.gz")
           "out/data.txt" sample_frame.

(** A download from a server that cannot be reached, in a world in which
    the temporary file cannot be unlinked. *)
Definition C3_sample_busy : result unit * Frame :=
  Download busy_world unreachable (sample_url "/data.gz")
           "out/data.txt" sample_frame.

(** The file system after [os.MkdirAll("out/", 0o755)], and the temporary
    file then made for ["out/data.txt"]. *)
Definition out_prepared : FS :=
  <[ ["home"; "u"; "out"] := Directory mode_0o755 ]> sample_fs.

Definition out_tmp : os_File := mkFile "out/data.txt123456789".

(** A URL whose path ends in ["zgz"]. *)
Definition C4_sample : result unit * Frame :=
  Download sample_world gzip_client (sample_url "/blobzgz")
           "data.txt" sample_frame.

(** A server that answers 500 with a body, for a URL without compression
    suffix. *)
Definition failing_server : Client := answering 500 (mkReader hello None).

(** A body that is not a gzip stream: the page [<html></html>]. *)
Definition page : list byte :=
  [x3c; x68; x74; x6d; x6c; x3e; x3c; x2f; x68; x74; x6d; x6c; x3e].

Definition not_gzip : Client := answering 200 (mkReader page None).

Definition C8_sample : result unit * Frame :=
  Download sample_world gzip_client (sample_url "/data.gz")
           "data.txt" sample_frame.


Definition C9_sample : result unit * Frame :=
  Download sample_world unreachable (sample_url "/data")
           "data.txt" sample_frame.

Definition C10_sample : result unit * Frame :=
  Download sample_world unreachable (sample_url "/data.gz")
           "./out/data.txt" sample_frame.

(** * Facts *)

(** ** Facts about strings *)

Lemma append_cons (c : ascii) (a b : string) :
  String c a ++ b = String c (a ++ b).
Proof. reflexivity. Qed.

Lemma append_nil_r (s : string) : s ++ EmptyString = s.
Proof.
  induction s as [|c s IH]; [reflexivity|]. by rewrite append_cons, IH.
Qed.

Lemma append_assoc (a b c : string) : (a ++ b) ++ c = a ++ (b ++ c).
Proof.
  induction a as [|x a IH]; [reflexivity|]. by rewrite !append_cons, IH.
Qed.

Lemma append_length (a b : string) :
  String.length (a ++ b) = (String.length a + String.length b)%nat.
Proof.
  induction a as [|x a IH]; [reflexivity|].
  rewrite append_cons. cbn. by rewrite IH.
Qed.

Lemma append_inv_head (a b c : string) : a ++ b = a ++ c -> b = c.
Proof.
  induction a as [|x a IH]; [done|]. rewrite !append_cons. intros [=]. auto.
Qed.

Lemma substring_all (s : string) : substring 0 (String.length s) s = s.
Proof. induction s as [|c s IH]; [reflexivity|]. cbn. by rewrite IH. Qed.

Lemma substring_skip (a b : string) (n : nat) :
  substring (String.length a) n (a ++ b) = substring 0 n b.
Proof.
  induction a as [|x a IH]; [reflexivity|]. rewrite append_cons. exact IH.
Qed.

Lemma substring_split (s : string) (n : nat) :
  (n <= String.length s)%nat ->
  s = substring 0 n s ++ substring n (String.length s - n) s.
Proof.
  revert n; induction s as [|c s IH]; intros [|n] Hn; cbn in *;
    try reflexivity; try lia.
  - by rewrite substring_all.
  - rewrite append_cons. f_equal. apply IH. lia.
Qed.

Lemma HasSuffix_ends_in (s suffix : string) :
  strings_HasSuffix s suffix = true <-> ends_in s suffix.
Proof.
  unfold strings_HasSuffix, ends_in. split.
  - intros [Hle Heq]%andb_prop.
    apply Nat.leb_le in Hle. apply String.eqb_eq in Heq.
    exists (substring 0 (String.length s - String.length suffix) s).
    pose proof (substring_split s (String.length s - String.length suffix))
      as Hcut.
    replace (String.length s - (String.length s - String.length suffix))%nat
      with (String.length suffix) in Hcut by lia.
    rewrite Heq in Hcut. apply Hcut. lia.
  - intros [front ->]. rewrite append_length.
    apply andb_true_intro. split; [apply Nat.leb_le; lia|].
    replace (String.length front + String.length suffix - String.length suffix)%nat
      with (String.length front) by lia.
    rewrite substring_skip, substring_all. apply String.eqb_refl.
Qed.

(** ** Facts about paths *)

Lemma IsPathSeparator_true (c : ascii) :
  IsPathSeparator c = true -> c = "/"%char.
Proof. apply Ascii.eqb_eq. Qed.

Lemma no_separator_app (a b : string) :
  no_separator (a ++ b) = no_separator a && no_separator b.
Proof.
  induction a as [|c a IH]; [reflexivity|].
  rewrite append_cons. cbn. by rewrite IH, andb_assoc.
Qed.

Lemma Split_spec (path : string) :
  path = fst (filepath_Split path) ++ snd (filepath_Split path) /\
  no_separator (snd (filepath_Split path)) = true /\
  (fst (filepath_Split path) = EmptyString \/
   exists front, fst (filepath_Split path) = front ++ "/").
Proof.
  induction path as [|c rest (Hcat & Hbase & Hdir)]; cbn.
  - auto.
  - destruct (filepath_Split rest) as [[|x d] file]; cbn in *.
    + destruct (IsPathSeparator c) eqn:Hc; cbn.
      * apply IsPathSeparator_true in Hc as ->.
        split; [by rewrite Hcat|]. split; [done|]. right. by exists EmptyString.
      * rewrite Hc. split; [by rewrite Hcat|]. auto.
    + split; [by rewrite Hcat|]. split; [done|]. right.
      destruct Hdir as [|[front Hfront]]; [done|].
      exists (String c front). by rewrite Hfront.
Qed.

Lemma dir_of_nonempty (path : string) : dir_of path <> EmptyString.
Proof.
  unfold dir_of. destruct (String.eqb_spec (fst (filepath_Split path)) EmptyString);
    [done|done].
Qed.

Lemma components_name (b cur : string) :
  no_separator b = true -> components_from cur b = [cur ++ b].
Proof.
  revert cur; induction b as [|c b IH]; intros cur Hb; cbn in *.
  - by rewrite append_nil_r.
  - apply andb_prop in Hb as [Hc Hb]. apply negb_true_iff in Hc.
    rewrite Hc, IH by done. by rewrite append_assoc.
Qed.

Lemma components_cut (a b cur : string) :
  components_from cur (a ++ "/" ++ b) =
  (components_from cur a ++ components_from EmptyString b)%list.
Proof.
  revert cur; induction a as [|c a IH]; intros cur; [reflexivity|].
  rewrite append_cons. cbn. destruct (IsPathSeparator c); [|apply IH].
  cbn. f_equal. apply IH.
Qed.

Lemma is_abs_app (d x : string) : d <> EmptyString -> is_abs (d ++ x) = is_abs d.
Proof. by destruct d. Qed.

Lemma origin_app (cwd : list string) (d x : string) :
  d <> EmptyString -> origin cwd (d ++ x) = origin cwd d.
Proof. intros Hd. unfold origin. by rewrite is_abs_app. Qed.

Lemma origin_name (cwd : list string) (name : string) :
  no_separator name = true -> origin cwd name = cwd.
Proof.
  unfold origin. destruct name as [|c name]; [done|]. cbn.
  by destruct (IsPathSeparator c).
Qed.

(** A name placed after a directory that ends in a separator. *)
Lemma resolve_under (cwd : list string) (front name : string) :
  no_separator name = true ->
  resolve cwd ((front ++ "/") ++ name) =
  step (resolve cwd (front ++ "/")) name.
Proof.
  intros Hname. unfold resolve, components.
  rewrite origin_app by (by destruct front).
  rewrite append_assoc, components_cut, (components_name name) by done.
  rewrite <- (append_nil_r (front ++ "/")), append_assoc, components_cut.
  cbn. by rewrite !fold_left_app.
Qed.

Lemma resolve_name (cwd : list string) (name : string) :
  no_separator name = true -> resolve cwd name = step cwd name.
Proof.
  intros Hname. unfold resolve, components.
  by rewrite origin_name, components_name.
Qed.

Lemma resolve_split (cwd : list string) (path : string) :
  resolve cwd path = step (resolve cwd (dir_of path)) (base_of path).
Proof.
  destruct (Split_spec path) as (Hcat & Hbase & Hdir).
  unfold dir_of, base_of.
  destruct Hdir as [Hd|[front Hd]]; rewrite Hd in *.
  - cbn. rewrite Hcat at 1. cbn. by apply resolve_name.
  - replace (String.eqb (front ++ "/") EmptyString) with false
      by (by destruct front).
    rewrite Hcat at 1. by apply resolve_under.
Qed.

Lemma HasSuffix_sep (d : string) :
  ends_with_separator d = true -> exists front, d = front ++ "/".
Proof. apply HasSuffix_ends_in. Qed.

Lemma resolve_join (cwd : list string) (d name : string) :
  d <> EmptyString -> no_separator name = true ->
  resolve cwd (joinPath d name) = step (resolve cwd d) name.
Proof.
  intros Hd Hname. unfold joinPath.
  destruct (ends_with_separator d) eqn:Hsep.
  - apply HasSuffix_sep in Hsep as [front ->]. by apply resolve_under.
  - unfold resolve, components.
    rewrite origin_app, components_cut, (components_name name) by done.
    by rewrite fold_left_app.
Qed.

(** ** Facts about temp-file names *)

Lemma digits_string_of_uint (d : Decimal.uint) :
  digits (NilEmpty.string_of_uint d) = true.
Proof. induction d; cbn; auto. Qed.

Lemma nextRandom_digits (w : World) :
  exists c rest, nextRandom w = String c rest /\
                 is_digit c = true /\ digits rest = true.
Proof.
  unfold nextRandom, NilZero.string_of_uint.
  pose proof (digits_string_of_uint (N.to_uint (w_rand w mod 2 ^ 32))) as H.
  destruct (N.to_uint _); cbn in *; eauto.
Qed.

Lemma digits_no_separator (s : string) :
  digits s = true -> no_separator s = true.
Proof.
  induction s as [|c s IH]; [done|]. cbn. intros [Hc Hs]%andb_prop.
  rewrite IH by done. rewrite andb_true_r. apply negb_true_iff.
  unfold IsPathSeparator. destruct (Ascii.eqb_spec c "/"); [subst; done|done].
Qed.

Lemma mem_app (c : ascii) (a b : string) :
  mem c (a ++ b) = mem c a || mem c b.
Proof.
  induction a as [|x a IH]; [reflexivity|].
  rewrite append_cons. cbn. by rewrite IH, orb_assoc.
Qed.

Lemma cut_last_star_spec (s p q : string) :
  cut_last_star s = Some (p, q) -> s = p ++ "*" ++ q.
Proof.
  revert p; induction s as [|c s IH]; intros p; cbn; [done|].
  destruct (cut_last_star s) as [[p' q']|].
  - intros [= <- <-]. rewrite append_cons. f_equal. by apply IH.
  - destruct (Ascii.eqb_spec c "*"); [|done]. by intros [= <- <-]; subst.
Qed.

(** The two halves of the pattern and how they make up the base name. *)
Lemma prefixAndSuffix_spec (b : string) :
  no_separator b = true ->
  exists p s, prefixAndSuffix b = Ok (p, s) /\
              no_separator p = true /\ no_separator s = true /\
              (b = p ++ "*" ++ s \/ (b = p /\ s = EmptyString)).
Proof.
  intros Hb. unfold prefixAndSuffix. rewrite Hb.
  destruct (cut_last_star b) as [[p s]|] eqn:Hcut.
  - exists p, s. apply cut_last_star_spec in Hcut. subst b.
    rewrite !no_separator_app in Hb.
    apply andb_prop in Hb as [Hp [_ Hs]%andb_prop].
    split; [done|]. split; [done|]. split; [done|]. by left.
  - exists b, EmptyString. split; [done|]. split; [done|]. split; [done|]. by right.
Qed.

#[local] Arguments Ascii.eqb : simpl never.

Section TempName.
Variables (w : World) (p s : string).
Hypothesis (Hp : no_separator p = true) (Hs : no_separator s = true).

Lemma temp_base_no_separator : no_separator (temp_base w p s) = true.
Proof.
  unfold temp_base. rewrite !no_separator_app, Hp, Hs.
  destruct (nextRandom_digits w) as (c & rest & -> & Hc & Hrest).
  rewrite (digits_no_separator (String c rest)); [done|].
  cbn. by rewrite Hc, Hrest.
Qed.

Lemma temp_base_has_digit :
  exists c, is_digit c = true /\ mem c (temp_base w p s) = true.
Proof.
  destruct (nextRandom_digits w) as (c & rest & Hr & Hc & _).
  exists c. split; [done|]. unfold temp_base.
  rewrite Hr, !mem_app. cbn. rewrite Ascii.eqb_refl. cbn.
  by rewrite orb_true_r.
Qed.

Lemma temp_base_proper (st : list string) :
  step st (temp_base w p s) = (st ++ [temp_base w p s])%list.
Proof.
  destruct temp_base_has_digit as (c & Hc & Hmem).
  unfold step.
  destruct (String.eqb_spec (temp_base w p s) EmptyString) as [E|_];
    [by rewrite E in Hmem|].
  destruct (String.eqb_spec (temp_base w p s) ".") as [E|_].
  { rewrite E in Hmem. cbn in Hmem. rewrite orb_false_r in Hmem.
    apply Ascii.eqb_eq in Hmem. by subst c. }
  destruct (String.eqb_spec (temp_base w p s) "..") as [E|_]; [|done].
  rewrite E in Hmem. cbn in Hmem. rewrite orb_false_r in Hmem.
  apply orb_prop in Hmem as [Hmem|Hmem];
    apply Ascii.eqb_eq in Hmem; by subst c.
Qed.

Lemma temp_base_differs (b : string) :
  b = p ++ "*" ++ s \/ (b = p /\ s = EmptyString) -> temp_base w p s <> b.
Proof.
  unfold temp_base.
  destruct (nextRandom_digits w) as (c & rest & -> & Hc & _).
  intros [->|[-> Hs']] E.
  - apply append_inv_head in E. rewrite !append_cons in E.
    injection E as -> _. done.
  - apply (f_equal String.length) in E.
    rewrite !append_length in E. cbn in E. lia.
Qed.
End TempName.

Lemma joinPath_app (d a b : string) : joinPath d a ++ b = joinPath d (a ++ b).
Proof.
  unfold joinPath. destruct (ends_with_separator d);
    by rewrite !append_assoc.
Qed.

(** ** Facts about the library calls *)

Lemma open_excl_inv (w : World) (name : string) (f f2 : FS) (r : result os_File) :
  open_excl w name f = (r, f2) ->
  match r with
  | Ok tmp => Name tmp = name /\ f !! at_path w name = None /\
              is_dir f (removelast (at_path w name)) = true /\
              f2 = <[at_path w name := Regular []]> f
  | Err _ => f2 = f
  end.
Proof.
  unfold open_excl, at_path. intros H.
  repeat case_match; simplify_eq; try done.
  split; [done|]. split; [done|]. split; [|done].
  by apply negb_false_iff.
Qed.

Lemma step_other (st : list string) (b tb : string) :
  tb <> b -> step st b <> (st ++ [tb])%list.
Proof.
  intros Hne E. pose proof (f_equal List.length E) as Hlen.
  rewrite length_app in Hlen. cbn in Hlen.
  unfold step in *. repeat case_match; try lia.
  - destruct st as [|x st _] using rev_ind; [cbn in *; lia|].
    rewrite removelast_last, length_app in Hlen. cbn in Hlen. lia.
  - apply app_inj_tail in E as [_ E]. congruence.
Qed.

Lemma create_temp_inv (w : World) (path : string) (f f2 : FS)
      (r : result os_File) :
  create_temp w (dir_of path) (base_of path) f = (r, f2) ->
  match r with
  | Ok tmp =>
      f !! at_path w (Name tmp) = None /\
      f2 = <[at_path w (Name tmp) := Regular []]> f /\
      at_path w (Name tmp) <> at_path w path /\
      is_dir f (at_path w (dir_of path)) = true /\
      exists tb, Name tmp = joinPath (dir_of path) tb /\
                 at_path w (Name tmp) = (at_path w (dir_of path) ++ [tb])%list
  | Err _ => f2 = f
  end.
Proof.
  unfold create_temp.
  destruct (String.eqb_spec (dir_of path) EmptyString) as [E|_];
    [by apply dir_of_nonempty in E|].
  destruct (Split_spec path) as (_ & Hbase & _). fold (base_of path) in Hbase.
  destruct (prefixAndSuffix_spec _ Hbase) as (p & s & -> & Hp & Hs & Hshape).
  rewrite joinPath_app. fold (temp_base w p s).
  intros H%open_excl_inv. destruct r as [tmp|e]; [|done].
  destruct H as (Hname & Hfresh & Hparent & ->). rewrite Hname.
  assert (Hloc : at_path w (joinPath (dir_of path) (temp_base w p s)) =
                 (at_path w (dir_of path) ++ [temp_base w p s])%list).
  { unfold at_path. rewrite resolve_join.
    - by apply temp_base_proper.
    - apply dir_of_nonempty.
    - by apply temp_base_no_separator. }
  split; [done|]. split; [done|]. split.
  { rewrite Hloc. intros E. symmetry in E. revert E.
    unfold at_path. rewrite (resolve_split _ path). apply step_other.
    by apply temp_base_differs. }
  split.
  { rewrite Hloc in Hparent. by rewrite removelast_last in Hparent. }
  by exists (temp_base w p s).
Qed.

Lemma rename_file_inv (w : World) (old new : string) (f f2 : FS)
      (r : result unit) :
  rename_file w old new f = (r, f2) ->
  match r with
  | Ok _ => exists c, f !! at_path w old = Some (Regular c) /\
                      is_dir f (at_path w new) = false /\
                      f2 = <[at_path w new := Regular c]>
                             (delete (at_path w old) f)
  | Err _ => f2 = f
  end.
Proof.
  unfold rename_file, at_path. intros H.
  repeat case_match; simplify_eq; try done. eauto.
Qed.

Lemma copy_result_inv (w : World) (src : Reader) (r : result nat)
      (written : list byte) :
  copy_result w src = (r, written) ->
  match r with
  | Ok n => n = List.length (r_data src) /\ written = r_data src /\
            r_err src = None
  | Err _ => True
  end.
Proof.
  unfold copy_result. intros H. repeat case_match; simplify_eq; done.
Qed.

(** [os.MkdirAll] only ever adds directories. *)
Lemma mkdir_walk_grows (w : World) (perm : Z) (names cur : list string)
      (f f1 : FS) (r : result unit) :
  mkdir_walk w perm cur names f = (r, f1) ->
  forall l,
    match f !! l with
    | Some n => f1 !! l = Some n
    | None => f1 !! l = None \/ f1 !! l = Some (Directory (masked w perm))
    end.
Proof.
  revert cur f; induction names as [|name rest IH]; intros cur f H l;
    cbn in H.
  - simplify_eq. destruct (f1 !! l); auto.
  - destruct (String.eqb name EmptyString); [exact (IH _ _ H l)|].
    destruct (String.eqb name "."); [exact (IH _ _ H l)|].
    destruct (String.eqb name ".."); [exact (IH _ _ H l)|].
    destruct (f !! (cur ++ [name])%list) as [[p|c]|] eqn:Hhere.
    + exact (IH _ _ H l).
    + simplify_eq. destruct (f1 !! l); auto.
    + destruct (w_mkdir_err w (cur ++ [name])%list).
      { simplify_eq. destruct (f1 !! l); auto. }
      specialize (IH _ _ H l).
      destruct (decide ((cur ++ [name])%list = l)) as [<-|Hne].
      * rewrite lookup_insert_eq in IH. rewrite Hhere. auto.
      * by rewrite lookup_insert_ne in IH.
Qed.

(** ** The exit paths are exhaustive *)

(** The cleanup guard at work: [os.Remove] on the temporary file leaves
    [cleaned]. *)
Lemma remove_created (w : World) (tmp : os_File) (c : list byte) (f : FS) :
  f !! at_path w (Name tmp) = None ->
  remove_file w (Name tmp) (<[at_path w (Name tmp) := Regular c]> f)
  = (match w_remove_err w with Some e => Err e | None => Ok tt end,
     cleaned w f tmp c).
Proof.
  intros Hfresh. unfold remove_file, cleaned. fold (at_path w (Name tmp)).
  rewrite lookup_insert_eq. destruct (w_remove_err w); [done|].
  rewrite delete_insert_eq. by rewrite delete_id.
Qed.

Lemma cleaned_removed (w : World) (f : FS) (tmp : os_File) (c : list byte) :
  w_remove_err w = None -> cleaned w f tmp c = f.
Proof. unfold cleaned. by intros ->. Qed.

Lemma cleaned_other (w : World) (f : FS) (tmp : os_File) (c : list byte)
      (l : list string) :
  l <> at_path w (Name tmp) -> cleaned w f tmp c !! l = f !! l.
Proof.
  intros Hl. unfold cleaned. destruct (w_remove_err w); [|done].
  by rewrite lookup_insert_ne.
Qed.

Lemma write_created (w : World) (name : string) (bs : list byte) (f : FS) :
  alter (append_bytes bs) (at_path w name) (<[at_path w name := Regular []]> f)
  = <[at_path w name := Regular bs]> f.
Proof. by rewrite alter_insert_eq. Qed.

Lemma is_dir_insert_other (f : FS) (t l : list string) (n : node) :
  t <> l -> is_dir (<[t := n]> f) l = is_dir f l.
Proof.
  intros Hne. unfold is_dir. destruct l; [done|]. by rewrite lookup_insert_ne.
Qed.

Lemma Download_unfold (w : World) (client : Client) (u : URL) (path : string) :
  Download w client u path =
  bind (os_MkdirAll w (dir_of path) mode_0o755) (fun _ =>
  bind (wrapping "create temporary file: "
          (ioutil_TempFile w (dir_of path) (base_of path))) (fun tmpFile =>
  defer (ignore (File_Close w tmpFile)) (
  bind (set_moved false) (fun _ =>
  defer (fun fr =>
           if negb (moved fr) then ignore (os_Remove w (Name tmpFile)) fr
           else fr) (
  bind (http_NewRequest w http_MethodGet u) (fun req =>
  bind (client_Do client req) (fun resp =>
  defer (ignore (Body_Close resp)) (
  bind (if strings_HasSuffix (Path u) "gz" then
          call (EvGzipNewReader (Body resp)) (gzip_NewReader w (Body resp))
        else if strings_HasSuffix (Path u) "bz2" then
          call (EvBzip2NewReader (Body resp))
               (Ok (bzip2_NewReader w (Body resp)))
        else if strings_HasSuffix (Path u) "xz" then
          call (EvXzNewReader (Body resp)) (xz_NewReader w (Body resp))
        else ret (Body resp)) (fun r =>
  bind (io_Copy w tmpFile r) (fun _ =>
  bind (wrapping "write and close temporary file: " (File_Close w tmpFile))
       (fun _ =>
  bind (os_Rename w (Name tmpFile) path) (fun _ =>
  bind (set_moved true) (fun _ => ret tt))))))))))))).
Proof.
  unfold Download, dir_of, base_of. by destruct (filepath_Split path).
Qed.

(** The optional decompression step of the program, as the monadic
    computation it is, agrees with [decoder_stage]. *)
Lemma switch_decoder (w : World) (u : URL) (body : Reader) (fr : Frame) :
  (if strings_HasSuffix (Path u) "gz" then
     call (EvGzipNewReader body) (gzip_NewReader w body)
   else if strings_HasSuffix (Path u) "bz2" then
     call (EvBzip2NewReader body) (Ok (bzip2_NewReader w body))
   else if strings_HasSuffix (Path u) "xz" then
     call (EvXzNewReader body) (xz_NewReader w body)
   else ret body) fr =
  (snd (decoder_stage w u body),
   mkFrame (mkSys (fs (sys fr))
                  (trace (sys fr) ++ fst (decoder_stage w u body)))
           (moved fr)).
Proof.
  unfold decoder_stage, call, syscall, ret.
  repeat case_match; cbn; try done.
  destruct fr as [[f t] m]. cbn. by rewrite app_nil_r.
Qed.

Ltac tidy_trace := rewrite <- ?app_assoc; cbn [app List.app].
Ltac run := cbn [sys fs trace moved negb fst snd].

Lemma Download_exit (w : World) (client : Client) (u : URL) (path : string)
      (fr : Frame) :
  match Download w client u path fr with
  | (Err e, fr') => exists s, Run w client u path fr s (Err e) fr'
  | (Ok _, fr') => Done w client u path fr fr'
  end.
Proof.
  rewrite Download_unfold.
  unfold bind at 1. unfold os_MkdirAll, syscall at 1.
  destruct (mkdir_all w (dir_of path) mode_0o755 (fs (sys fr)))
    as [[[]|e] f1] eqn:Hmk.
  2:{ exists DirectoryCreation. by apply Run_mkdir. }
  unfold bind at 1. unfold wrapping, ioutil_TempFile, syscall at 1. run.
  destruct (create_temp w (dir_of path) (base_of path) f1)
    as [[tmp|e] f2] eqn:Htmp; pose proof (create_temp_inv _ _ _ _ _ Htmp) as Hinv;
    cbn in Hinv.
  2:{ subst f2. exists TempFileCreation. tidy_trace. by apply Run_temp. }
  destruct Hinv as (Hfresh & -> & Hne & Hdir & _).
  assert (Hacq : acquired w path fr f1 tmp) by done.
  unfold defer at 1 2, bind at 1 2, set_moved, http_NewRequest.
  unfold call at 1, syscall at 1. run.
  destruct (w_newRequest_err w u) as [e|] eqn:Hreq.
  { run. unfold ignore, os_Remove, File_Close, syscall. run.
    rewrite remove_created by done. run.
    exists RequestConstruction. tidy_trace. by eapply Run_request. }
  unfold bind at 1, client_Do. unfold call at 1, syscall at 1. run.
  destruct (Do client u) as [resp|e] eqn:Hdo.
  2:{ run. unfold ignore, os_Remove, File_Close, syscall. run.
    rewrite remove_created by done. run.
    exists Transport. tidy_trace. by eapply Run_transport. }
  unfold defer at 1, bind at 1. rewrite switch_decoder. run.
  destruct (decoder_stage w u (Body resp)) as [evs [r|e]] eqn:Hdec.
  2:{ run. unfold ignore, os_Remove, File_Close, Body_Close, call, syscall. run.
    rewrite remove_created by done. run.
    exists DecompressionInit. tidy_trace. by eapply Run_decoder. }
  run. unfold bind at 1, io_Copy, syscall at 1. run.
  fold (at_path w (Name tmp)). 
  destruct (copy_result w r) as [[n|e] written] eqn:Hcopy; run;
    rewrite write_created.
  2:{ unfold ignore, os_Remove, File_Close, Body_Close, call, syscall. run.
    rewrite remove_created by done. run.
    exists Copy. tidy_trace. by eapply Run_copy. }
  apply copy_result_inv in Hcopy as Hc. destruct Hc as (-> & -> & Heof).
  unfold bind at 1, wrapping, File_Close at 1, syscall at 1. run.
  destruct (w_close_err w) as [e|] eqn:Hclose.
  { unfold ignore, os_Remove, File_Close, Body_Close, call, syscall. run.
    rewrite remove_created by done. run.
    exists Finalize. tidy_trace. by eapply Run_close. }
  unfold bind at 1, os_Rename, syscall at 1. run.
  destruct (rename_file w (Name tmp) path _) as [[[]|e] f3] eqn:Hren;
    pose proof (rename_file_inv _ _ _ _ _ _ Hren) as Hinv; cbn in Hinv.
  2:{ subst f3.
    unfold ignore, os_Remove, File_Close, Body_Close, call, syscall. run.
    rewrite remove_created by done. run.
    exists Rename. tidy_trace. by eapply Run_rename. }
  destruct Hinv as (c & Hc & Hnotdir & ->).
  rewrite lookup_insert_eq in Hc. injection Hc as <-.
  rewrite delete_insert_eq, delete_id in * by done.
  unfold bind, set_moved, ret, ignore, File_Close, Body_Close, call, syscall.
  run. tidy_trace. eapply Done_ok; eauto.
  by rewrite is_dir_insert_other in Hnotdir.
Qed.

(** ** Directory preparation *)





(** What [os.MkdirAll] adds, it adds on its way, as a directory with the
    requested mode less the umask. *)
Lemma mkdir_walk_new (w : World) (perm : Z) (names cur : list string)
      (f f1 : FS) (r : result unit) :
  mkdir_walk w perm cur names f = (r, f1) ->
  forall l n,
    f !! l = None -> f1 !! l = Some n ->
    In l (walk cur names) /\ n = Directory (masked w perm).
Proof.
  intros H l n Hold Hnew. split.
  - revert cur f H Hold; induction names as [|name rest IH];
      intros cur f H Hold; cbn in H |- *.
    + simplify_eq; congruence.
    + destruct (String.eqb name EmptyString); [by eapply IH|].
      destruct (String.eqb name "."); [by eapply IH|].
      destruct (String.eqb name ".."); [by eapply IH|].
      destruct (f !! (cur ++ [name])%list) as [[p|c]|] eqn:Hhere.
      * right. by eapply IH.
      * simplify_eq; congruence.
      * destruct (w_mkdir_err w (cur ++ [name])%list);
          [simplify_eq; congruence|].
        destruct (decide ((cur ++ [name])%list = l)) as [<-|Hne]; [by left|].
        right. eapply IH; [done|]. by rewrite lookup_insert_ne.
  - pose proof (mkdir_walk_grows _ _ _ _ _ _ _ H l) as Hk.
    rewrite Hold in Hk. destruct Hk; congruence.
Qed.



(** ** Decoder selection *)

Lemma selected_decoder_stage (w : World) (u : URL) (body : Reader)
      (d : decoder) :
  selected (Path u) d -> decoder_stage w u body = open_reader w d body.
Proof.
  unfold decoder_stage.
  destruct (strings_HasSuffix (Path u) "gz") eqn:Hgz;
    [apply HasSuffix_ends_in in Hgz | apply not_true_iff_false in Hgz;
      rewrite HasSuffix_ends_in in Hgz];
  (destruct (strings_HasSuffix (Path u) "bz2") eqn:Hbz;
    [apply HasSuffix_ends_in in Hbz | apply not_true_iff_false in Hbz;
      rewrite HasSuffix_ends_in in Hbz]);
  (destruct (strings_HasSuffix (Path u) "xz") eqn:Hxz;
    [apply HasSuffix_ends_in in Hxz | apply not_true_iff_false in Hxz;
      rewrite HasSuffix_ends_in in Hxz]);
  destruct d; cbn; intros Hsel; try reflexivity; exfalso; tauto.
Qed.

Lemma selected_total (p : string) : exists d, selected p d.
Proof.
  destruct (strings_HasSuffix p "gz") eqn:Hgz;
    [apply HasSuffix_ends_in in Hgz; by exists Gzip|].
  apply not_true_iff_false in Hgz. rewrite HasSuffix_ends_in in Hgz.
  destruct (strings_HasSuffix p "bz2") eqn:Hbz;
    [apply HasSuffix_ends_in in Hbz; by exists Bzip2|].
  apply not_true_iff_false in Hbz. rewrite HasSuffix_ends_in in Hbz.
  destruct (strings_HasSuffix p "xz") eqn:Hxz;
    [apply HasSuffix_ends_in in Hxz; by exists Xz|].
  apply not_true_iff_false in Hxz. rewrite HasSuffix_ends_in in Hxz.
  by exists Identity.
Qed.

Lemma selected_unique (p : string) (d d' : decoder) :
  selected p d -> selected p d' -> d = d'.
Proof. destruct d, d'; cbn; try done; tauto. Qed.

(** ** Congruence of the monad's combinators *)

Lemma bind_ext {A B : Type} (m : M A) (k1 k2 : A -> M B) (fr : Frame) :
  (forall a fr', k1 a fr' = k2 a fr') -> bind m k1 fr = bind m k2 fr.
Proof. intros H. unfold bind. destruct (m fr) as [[a|e] fr']; auto. Qed.

Lemma defer_ext {A : Type} (d : Frame -> Frame) (b1 b2 : M A) (fr : Frame) :
  (forall fr', b1 fr' = b2 fr') -> defer d b1 fr = defer d b2 fr.
Proof. intros H. unfold defer. by rewrite H. Qed.

Lemma Do_with_status {B : Type} (code : Z) (client : Client) (req : URL)
      (k : Response -> M B) (fr : Frame) :
  (forall resp fr', k (mkResponse code (Body resp)) fr' = k resp fr') ->
  bind (client_Do (with_status code client) req) k fr =
  bind (client_Do client req) k fr.
Proof.
  intros H. unfold bind, client_Do, call, syscall, with_status. cbn.
  destruct (Do client req); auto.
Qed.

Lemma Download_with_status (w : World) (client : Client) (u : URL)
      (path : string) (code : Z) (fr : Frame) :
  Download w (with_status code client) u path fr = Download w client u path fr.
Proof.
  rewrite !Download_unfold.
  apply bind_ext; intros _ ?. apply bind_ext; intros tmp ?.
  apply defer_ext; intros ?. apply bind_ext; intros _ ?.
  apply defer_ext; intros ?. apply bind_ext; intros req ?.
  apply Do_with_status. reflexivity.
Qed.

(** ** Reasoning about exit paths *)

Lemma Download_cases (w : World) (client : Client) (u : URL) (path : string)
      (fr fr' : Frame) (r : result unit) :
  Download w client u path fr = (r, fr') ->
  match r with
  | Ok _ => Done w client u path fr fr'
  | Err e => exists s, Run w client u path fr s (Err e) fr'
  end.
Proof.
  intros H. pose proof (Download_exit w client u path fr) as Hexit.
  rewrite H in Hexit. by destruct r.
Qed.

Lemma acquired_unique (w : World) (path : string) (fr : Frame)
      (f1 f1' : FS) (tmp tmp' : os_File) :
  acquired w path fr f1 tmp -> acquired w path fr f1' tmp' ->
  f1 = f1' /\ tmp = tmp'.
Proof.
  intros (Hmk & Htmp & _) (Hmk' & Htmp' & _).
  rewrite Hmk in Hmk'. injection Hmk' as <-.
  rewrite Htmp in Htmp'. by injection Htmp' as <-.
Qed.

(** A call that returns an error leaves the file system as directory
    preparation left it, or, once the temporary file exists, as the cleanup
    guard left it. *)
Lemma Run_fs (w : World) (client : Client) (u : URL) (path : string)
      (fr fr' : Frame) (s : stage) (r : result unit) :
  Run w client u path fr s r fr' ->
  fs (sys fr') = snd (mkdir_all w (dir_of path) mode_0o755 (fs (sys fr))) \/
  exists f1 tmp c,
    acquired w path fr f1 tmp /\ fs (sys fr') = cleaned w f1 tmp c.
Proof.
  intros Hrun. inversion Hrun; subst; cbn [leave sys fs]; eauto 10;
    left;
    match goal with
    | Hmk : mkdir_all _ _ _ _ = _ |- _ => by rewrite Hmk
    end.
Qed.

(** Away from the temporary file, so at the destination too, it is as
    directory preparation left it. *)
Lemma Run_fs_other (w : World) (client : Client) (u : URL) (path : string)
      (fr fr' : Frame) (s : stage) (r : result unit) (l : list string) :
  Run w client u path fr s r fr' ->
  (forall f1 tmp, acquired w path fr f1 tmp -> l <> at_path w (Name tmp)) ->
  fs (sys fr') !! l =
  snd (mkdir_all w (dir_of path) mode_0o755 (fs (sys fr))) !! l.
Proof.
  intros Hrun Hl.
  destruct (Run_fs _ _ _ _ _ _ _ _ Hrun) as [-> | (f1 & tmp & c & Hacq & ->)];
    [done|].
  rewrite cleaned_other by eauto. destruct Hacq as (Hmk & _). by rewrite Hmk.
Qed.

Lemma Run_fs_dest (w : World) (client : Client) (u : URL) (path : string)
      (fr fr' : Frame) (s : stage) (r : result unit) :
  Run w client u path fr s r fr' ->
  fs (sys fr') !! at_path w path =
  snd (mkdir_all w (dir_of path) mode_0o755 (fs (sys fr))) !! at_path w path.
Proof.
  intros Hrun. apply (Run_fs_other _ _ _ _ _ _ _ _ _ Hrun).
  intros f1 tmp (_ & Htmp & _).
  apply create_temp_inv in Htmp as (_ & _ & Hne & _). congruence.
Qed.

(** When the temporary file can be unlinked, nothing of the call is left
    but what directory preparation made. *)
Lemma Run_fs_removed (w : World) (client : Client) (u : URL) (path : string)
      (fr fr' : Frame) (s : stage) (r : result unit) :
  w_remove_err w = None ->
  Run w client u path fr s r fr' ->
  fs (sys fr') = snd (mkdir_all w (dir_of path) mode_0o755 (fs (sys fr))).
Proof.
  intros Hrm Hrun.
  destruct (Run_fs _ _ _ _ _ _ _ _ Hrun) as [-> | (f1 & tmp & c & Hacq & ->)];
    [done|].
  rewrite cleaned_removed by done. destruct Hacq as (Hmk & _). by rewrite Hmk.
Qed.

(** Case analysis on the decoder a run selected: replaces the events of
    the decompression step by the concrete call. *)
Ltac decoder_events Hdec :=
  match type of Hdec with
  | decoder_stage ?w ?u ?body = _ =>
      let d := fresh "d" in
      let Hd := fresh "Hd" in
      destruct (selected_total (Path u)) as [d Hd];
      rewrite (selected_decoder_stage w u body d Hd) in Hdec;
      destruct d; cbn [open_reader] in Hdec; simplify_eq
  end.

(** Membership in an explicit list of events, case by case. *)
Ltac in_cases H :=
  cbn in H; repeat (destruct H as [H|H]);
  try done; try discriminate; by simplify_eq.

(** Two facts about the same call agree. *)
Ltac agree :=
  repeat match goal with
         | Ha : acquired ?w ?p ?fr _ _, Hb : acquired ?w ?p ?fr _ _ |- _ =>
             destruct (acquired_unique _ _ _ _ _ _ _ Ha Hb) as [? ?];
             subst; clear Hb
         | Ha : acquired _ _ _ _ _, Hb : mkdir_all _ _ _ _ = (Err _, _) |- _ =>
             destruct Ha as (Ha & _); congruence
         | Ha : acquired _ _ _ _ _, Hb : create_temp _ _ _ _ = (Err _, _) |- _ =>
             let Hmk := fresh in let Htmp := fresh in
             destruct Ha as (Hmk & Htmp & _); congruence
         | Ha : ?x = ?a, Hb : ?x = ?b |- _ =>
             rewrite Ha in Hb;
             first [discriminate Hb | injection Hb as ?; subst | clear Hb]
         end.

(** The exit paths exclude one another: a call takes exactly one. *)
Lemma Run_deterministic
      (w : World) (client : Client) (u : URL) (path : string) (fr : Frame)
      (s1 s2 : stage) (r1 r2 : result unit) (fr1 fr2 : Frame) :
  Run w client u path fr s1 r1 fr1 -> Run w client u path fr s2 r2 fr2 ->
  s1 = s2 /\ r1 = r2 /\ fr1 = fr2.
Proof.
  intros H1 H2. inversion H1; inversion H2; subst; agree; try done.
Qed.

Lemma Run_not_Done
      (w : World) (client : Client) (u : URL) (path : string) (fr : Frame)
      (s : stage) (r : result unit) (fr1 fr2 : Frame) :
  Run w client u path fr s r fr1 -> Done w client u path fr fr2 -> False.
Proof. intros H1 H2. inversion H1; inversion H2; subst; agree. Qed.

(** Each exit path is taken whenever its conditions hold. *)
Lemma Run_Download
      (w : World) (client : Client) (u : URL) (path : string) (fr : Frame)
      (s : stage) (r : result unit) (fr' : Frame) :
  Run w client u path fr s r fr' -> Download w client u path fr = (r, fr').
Proof.
  intros Hrun. destruct (Download w client u path fr) as [r0 fr0] eqn:H.
  apply Download_cases in H. destruct r0 as [[]|e].
  - destruct (Run_not_Done _ _ _ _ _ _ _ _ _ Hrun H).
  - destruct H as [s0 H].
    by destruct (Run_deterministic _ _ _ _ _ _ _ _ _ _ _ Hrun H) as (_ & -> & ->).
Qed.

Lemma is_dir_insert_fresh (f : FS) (t l : list string) (c : list byte) :
  f !! t = None -> is_dir (<[t := Regular c]> f) l = is_dir f l.
Proof.
  intros Hfresh. destruct (decide (t = l)) as [<-|Hne];
    [|by apply is_dir_insert_other].
  unfold is_dir. destruct t; [done|]. by rewrite lookup_insert_eq, Hfresh.
Qed.

(** When no stage fails, the call returns success. *)
Lemma Download_succeeds
      (w : World) (client : Client) (u : URL) (path : string) (fr : Frame)
      (f1 : FS) (tmp : os_File) (resp : Response) (d : decoder) (r : Reader) :
  acquired w path fr f1 tmp ->
  w_newRequest_err w u = None ->
  Do client u = Ok resp ->
  selected (Path u) d ->
  snd (open_reader w d (Body resp)) = Ok r ->
  r_err r = None ->
  w_write_err w = None ->
  w_close_err w = None ->
  w_rename_err w = None ->
  is_dir f1 (at_path w path) = false ->
  is_dir f1 (removelast (at_path w path)) = true ->
  exists fr',
    Download w client u path fr = (Ok tt, fr') /\
    fs (sys fr') = <[at_path w path := Regular (r_data r)]> f1.
Proof.
  intros Hacq Hreq Hdo Hd Hopen Heof Hwrite Hclose Hrename Hdest Hparent.
  destruct (Download w client u path fr) as [res fr'] eqn:H.
  apply Download_cases in H. destruct res as [[]|e].
  - exists fr'. split; [done|].
    destruct H as [f1' tmp' resp' evs r' Hacq' _ Hdo' Hdec' _ _ _ _ _ _].
    destruct (acquired_unique _ _ _ _ _ _ _ Hacq Hacq') as [<- <-].
    rewrite Hdo in Hdo'. injection Hdo' as <-.
    rewrite (selected_decoder_stage w u _ d Hd) in Hdec'.
    rewrite Hdec' in Hopen. cbn in Hopen. by injection Hopen as ->.
  - exfalso. destruct H as [s Hrun].
    inversion Hrun; subst;
      try match goal with
          | Hacq' : acquired _ _ _ _ _ |- _ =>
              destruct (acquired_unique _ _ _ _ _ _ _ Hacq Hacq') as [<- <-]
          end;
      try (destruct Hacq as (Hmk & Htmp & _); congruence);
      try congruence;
      match goal with
      | Hdo' : Do client u = Ok _ |- _ =>
          rewrite Hdo in Hdo'; injection Hdo' as <-
      end;
      match goal with
      | Hdec : decoder_stage _ _ _ = _ |- _ =>
          rewrite (selected_decoder_stage w u _ d Hd) in Hdec;
          rewrite Hdec in Hopen; cbn in Hopen; try discriminate Hopen;
          injection Hopen as ->
      end.
    + match goal with
      | Hcopy : copy_result _ _ = _ |- _ =>
          unfold copy_result in Hcopy; rewrite Hwrite, Heof in Hcopy;
          discriminate Hcopy
      end.
    + match goal with
      | Hren : rename_file _ _ _ _ = _ |- _ =>
          unfold rename_file in Hren; fold (at_path w (Name tmp)) in Hren;
          fold (at_path w path) in Hren;
          rewrite lookup_insert_eq in Hren;
          rewrite !is_dir_insert_fresh in Hren by apply Hacq;
          rewrite Hdest, Hparent, Hrename in Hren; discriminate Hren
      end.
Qed.

Lemma selected_zgz (front : string) : selected (front ++ "zgz") Gzip.
Proof. exists (front ++ "z"). by rewrite append_assoc. Qed.

Lemma selected_upper_case : selected "/DATA.GZ" Identity.
Proof.
  cbn. rewrite <- !HasSuffix_ends_in. by vm_compute.
Qed.

Lemma selected_none : selected "/report" Identity.
Proof. cbn. rewrite <- !HasSuffix_ends_in. by vm_compute. Qed.

Lemma selected_gz : selected "/data.gz" Gzip.
Proof. by exists "/data.". Qed.

(** * The properties of the specification *)

(** C1: a call that returns success leaves, at the destination, a regular
    file whose content is exactly what the selected reader yields (the
    decompressed bytes of the response body, or its raw bytes when no suffix
    matched); the temporary file is gone, and apart from the destination the
    file system is as directory preparation left it. *)
Theorem C1_success_materialises_destination
        (w : World) (client : Client) (u : URL) (path : string)
        (fr fr' : Frame) :
  Download w client u path fr = (Ok tt, fr') ->
  exists f1 tmp resp d r,
    acquired w path fr f1 tmp /\
    Do client u = Ok resp /\
    selected (Path u) d /\
    snd (open_reader w d (Body resp)) = Ok r /\
    r_err r = None /\
    fs (sys fr') !! at_path w path = Some (Regular (r_data r)) /\
    fs (sys fr') !! at_path w (Name tmp) = None /\
    fs (sys fr') = <[at_path w path := Regular (r_data r)]> f1.
Proof.
  intros H%Download_cases. destruct H as
    [f1 tmp resp evs r Hacq Hreq Hdo Hdec Hcopy Heof Hclose Hren Hdir Hne].
  destruct (selected_total (Path u)) as [d Hd].
  rewrite (selected_decoder_stage w u (Body resp) d Hd) in Hdec.
  exists f1, tmp, resp, d, r. cbn [leave sys fs].
  split; [done|]. split; [done|]. split; [done|].
  split; [by rewrite Hdec|]. split; [done|].
  split; [apply lookup_insert_eq|]. split; [|done].
  rewrite lookup_insert_ne by done. apply Hacq.
Qed.

(** C1 at a gzip download into a directory that does not exist yet. *)
Lemma C1_witness :
  Download sample_world gzip_client (sample_url "/data.gz")
           "./out/data.txt" sample_frame = (Ok tt, snd C1_sample) /\
  exists f1 tmp resp d r,
    acquired sample_world "./out/data.txt" sample_frame f1 tmp /\
    Do gzip_client (sample_url "/data.gz") = Ok resp /\
    selected "/data.gz" d /\
    snd (open_reader sample_world d (Body resp)) = Ok r /\
    r_err r = None /\
    fs (sys (snd C1_sample)) !! at_path sample_world "./out/data.txt"
      = Some (Regular (r_data r)) /\
    fs (sys (snd C1_sample)) !! at_path sample_world (Name tmp) = None /\
    fs (sys (snd C1_sample))
      = <[at_path sample_world "./out/data.txt" := Regular (r_data r)]> f1.
Proof.
  assert (H : Download sample_world gzip_client (sample_url "/data.gz")
                "./out/data.txt" sample_frame = (Ok tt, snd C1_sample))
    by (vm_compute; reflexivity).
  split; [exact H|].
  exact (C1_success_materialises_destination _ _ _ _ _ _ H).
Defined.

(** C2, as stated, fails: with the destination ["out/"] and an unreachable
    server the call returns an error, yet the destination path, which named
    nothing before the call, names a directory after it. *)
Lemma C2_counterexample :
  fst C2_sample = Err (ErrBase "connection refused") /\
  fs (sys sample_frame) !! at_path sample_world "out/" = None /\
  fs (sys (snd C2_sample)) !! at_path sample_world "out/"
  = Some (Directory mode_0o755).
Proof. vm_compute. auto. Qed.

(** C2, amended: a call that returns an error leaves at the destination
    path exactly what directory preparation left there.  Whatever was at
    the destination path before the call is unmodified and no regular file
    appears there; the only change possible at the destination path is a
    directory that directory preparation itself created on its way, with
    the mode 0o755 less the umask. *)
Theorem C2_error_leaves_destination
        (w : World) (client : Client) (u : URL) (path : string)
        (fr fr' : Frame) (e : error) :
  Download w client u path fr = (Err e, fr') ->
  fs (sys fr') !! at_path w path =
    snd (mkdir_all w (dir_of path) mode_0o755 (fs (sys fr))) !! at_path w path /\
  (fs (sys fr') !! at_path w path = fs (sys fr) !! at_path w path \/
   (fs (sys fr) !! at_path w path = None /\
    fs (sys fr') !! at_path w path
    = Some (Directory (masked w mode_0o755)) /\
    In (at_path w path) (ancestors w (dir_of path)))).
Proof.
  intros H%Download_cases. destruct H as [s Hrun].
  pose proof (Run_fs_dest _ _ _ _ _ _ _ _ Hrun) as Hfs.
  split; [done|]. rewrite Hfs.
  destruct (mkdir_all w (dir_of path) mode_0o755 (fs (sys fr)))
    as [r f1] eqn:Hmk.
  pose proof (mkdir_walk_grows _ _ _ _ _ _ _ Hmk (at_path w path)) as Hgrow.
  cbn [snd]. destruct (fs (sys fr) !! at_path w path) as [n|] eqn:Hold.
  - by left.
  - destruct Hgrow as [-> | Hnew]; [by left|]. right.
    destruct (mkdir_walk_new _ _ _ _ _ _ _ Hmk _ _ Hold Hnew) as [Hin _].
    done.
Qed.

(** C2, amended, at the input of the counterexample. *)
Lemma C2_witness :
  Download sample_world unreachable (sample_url "/data.gz") "out/" sample_frame
  = (Err (ErrBase "connection refused"), snd C2_sample) /\
  fs (sys (snd C2_sample)) !! at_path sample_world "out/"
  = snd (mkdir_all sample_world (dir_of "out/") mode_0o755
           (fs (sys sample_frame))) !! at_path sample_world "out/" /\
  (fs (sys (snd C2_sample)) !! at_path sample_world "out/"
   = fs (sys sample_frame) !! at_path sample_world "out/" \/
   (fs (sys sample_frame) !! at_path sample_world "out/" = None /\
    fs (sys (snd C2_sample)) !! at_path sample_world "out/"
    = Some (Directory (masked sample_world mode_0o755)) /\
    In (at_path sample_world "out/") (ancestors sample_world (dir_of "out/")))).
Proof.
  assert (H : Download sample_world unreachable (sample_url "/data.gz")
                "out/" sample_frame
              = (Err (ErrBase "connection refused"), snd C2_sample))
    by (vm_compute; reflexivity).
  split; [exact H|].
  exact (C2_error_leaves_destination _ _ _ _ _ _ _ H).
Defined.

(** C3, as stated, fails: where the system refuses to unlink the temporary
    file, a call that fails (here because the server cannot be reached)
    attempts the removal once and returns the original error, yet the
    temporary file, which did not exist before the call, is still in the
    destination's directory after it. *)
Lemma C3_counterexample :
  fst C3_sample_busy = Err (ErrBase "connection refused") /\
  filter (fun e => kind_of e = KRemove) (trace (sys (snd C3_sample_busy)))
  = [EvRemove (Name out_tmp)] /\
  fs (sys sample_frame) !! at_path busy_world (Name out_tmp) = None /\
  fs (sys (snd C3_sample_busy)) !! at_path busy_world (Name out_tmp)
  = Some (Regular []) /\
  at_path busy_world (Name out_tmp)
  = (at_path busy_world (dir_of "out/data.txt") ++ ["data.txt123456789"])%list.
Proof. vm_compute. auto. Qed.

(** C3, amended: once the temporary file has been created, every return
    with an error calls [os.Remove] on it, exactly once, with [moved] unset;
    the return with success has renamed it, removes nothing, and is the only
    one on which [moved] is set.  The result of [os.Remove] is dropped: no
    entry is left at the temporary file's location after a success, nor
    after an error when the system did not refuse the removal; when it did,
    the temporary file stays.  Nothing else is left behind: every location
    other than the destination and the temporary file's holds what
    directory preparation left there. *)
Theorem C3_cleanup_guard
        (w : World) (client : Client) (u : URL) (path : string)
        (fr fr' : Frame) (r : result unit) :
  Download w client u path fr = (r, fr') ->
  (forall l,
      l <> at_path w path ->
      fs (sys fr') !! l =
      snd (mkdir_all w (dir_of path) mode_0o755 (fs (sys fr))) !! l \/
      exists f1 tmp c e0 e,
        acquired w path fr f1 tmp /\ l = at_path w (Name tmp) /\
        w_remove_err w = Some e0 /\ r = Err e /\
        fs (sys fr') !! l = Some (Regular c)) /\
  forall f1 tmp,
    acquired w path fr f1 tmp ->
    exists evs,
      trace (sys fr') = (trace (sys fr) ++ evs)%list /\
      match r with
      | Ok _ =>
          moved fr' = true /\
          occurrences KRemove evs = 0%nat /\
          filter (fun e => kind_of e = KRename) evs
            = [EvRename (Name tmp) path] /\
          fs (sys fr') !! at_path w (Name tmp) = None
      | Err _ =>
          moved fr' = false /\
          filter (fun e => kind_of e = KRemove) evs = [EvRemove (Name tmp)] /\
          match w_remove_err w with
          | None => fs (sys fr') !! at_path w (Name tmp) = None
          | Some _ =>
              exists c,
                fs (sys fr') !! at_path w (Name tmp) = Some (Regular c)
          end
      end.
Proof.
  intros H%Download_cases. split.
  - intros l Hl. destruct r as [[]|e].
    + left. destruct H as [f1 tmp resp evs r [Hmk _] _ _ _ _ _ _ _ _ _].
      cbn [leave sys fs]. rewrite Hmk. by apply lookup_insert_ne.
    + destruct H as [s Hrun].
      destruct (Run_fs _ _ _ _ _ _ _ _ Hrun)
        as [-> | (f1 & tmp & c & Hacq & ->)]; [by left|].
      pose proof Hacq as (Hmk & _ & Hfresh). rewrite Hmk. cbn [snd].
      unfold cleaned. destruct (w_remove_err w) as [e0|] eqn:Hrm; [|by left].
      destruct (decide (l = at_path w (Name tmp))) as [->|Hne].
      * right. exists f1, tmp, c, e0, e. by rewrite lookup_insert_eq.
      * left. by rewrite lookup_insert_ne.
  - intros f1 tmp Hacq. destruct r as [[]|e].
    + destruct H as
        [f1' tmp' resp evs r Hacq' Hreq Hdo Hdec Hcopy Heof Hclose Hren Hdir Hne].
      destruct (acquired_unique _ _ _ _ _ _ _ Hacq Hacq') as [<- <-].
      eexists. cbn [leave sys fs trace moved]. split; [reflexivity|].
      split; [done|].
      assert (Hgone : (<[at_path w path := Regular (r_data r)]> f1)
                        !! at_path w (Name tmp) = None)
        by (rewrite lookup_insert_ne by done; apply Hacq).
      unfold occurrences. decoder_events Hdec; by vm_compute.
    + destruct H as [s Hrun].
      assert (Hleft : forall c,
                 match w_remove_err w with
                 | None => cleaned w f1 tmp c !! at_path w (Name tmp) = None
                 | Some _ =>
                     exists c0, cleaned w f1 tmp c !! at_path w (Name tmp)
                                = Some (Regular c0)
                 end).
      { intros c. unfold cleaned. destruct (w_remove_err w); [|apply Hacq].
        exists c. apply lookup_insert_eq. }
      inversion Hrun; subst;
        try match goal with
            | Hacq' : acquired _ _ _ _ _ |- _ =>
                destruct (acquired_unique _ _ _ _ _ _ _ Hacq Hacq') as [<- <-]
            end;
        try (destruct Hacq as (Hmk & Htmp & _); congruence);
        (eexists; cbn [leave sys fs trace moved]; split; [reflexivity|];
         split; [done|]; split; [|by apply Hleft]);
        first
          [ by vm_compute
          | match goal with
            | Hdec : decoder_stage _ _ _ = _ |- _ =>
                decoder_events Hdec; by vm_compute
            end ].
Qed.

(** C3, amended, at the input of the counterexample. *)
Lemma C3_witness :
  Download busy_world unreachable (sample_url "/data.gz")
           "out/data.txt" sample_frame
  = (Err (ErrBase "connection refused"), snd C3_sample_busy) /\
  acquired busy_world "out/data.txt" sample_frame out_prepared out_tmp /\
  exists evs,
    trace (sys (snd C3_sample_busy)) = (trace (sys sample_frame) ++ evs)%list /\
    moved (snd C3_sample_busy) = false /\
    filter (fun e => kind_of e = KRemove) evs = [EvRemove (Name out_tmp)] /\
    exists c,
      fs (sys (snd C3_sample_busy)) !! at_path busy_world (Name out_tmp)
      = Some (Regular c).
Proof.
  assert (H : Download busy_world unreachable (sample_url "/data.gz")
                "out/data.txt" sample_frame
              = (Err (ErrBase "connection refused"), snd C3_sample_busy))
    by (vm_compute; reflexivity).
  assert (Hacq : acquired busy_world "out/data.txt" sample_frame
                   out_prepared out_tmp)
    by (unfold acquired; repeat split; vm_compute; reflexivity).
  split; [exact H|]. split; [exact Hacq|].
  exact (proj2 (C3_cleanup_guard _ _ _ _ _ _ _ H) _ _ Hacq).
Defined.

(** C4: the decoder is chosen from the URL's path alone, by trailing
    substring and in the order gz, bz2, xz, none: every path selects exactly
    one decoder, and in every run that gets a response the call that
    follows [client.Do] is the construction of that decoder's reader (no
    call for the identity), which is the reader a later copy reads from.
    The test is a plain one: a path ending in ["zgz"] selects gzip, and it
    is case-sensitive. *)
Theorem C4_decoder_selection
        (w : World) (client : Client) (u : URL) (path : string)
        (fr fr' : Frame) (r : result unit) :
  Download w client u path fr = (r, fr') ->
  (forall front, selected (front ++ "zgz") Gzip) /\
  selected "/DATA.GZ" Identity /\
  exists d,
    selected (Path u) d /\
    (forall d', selected (Path u) d' -> d' = d) /\
    exists evs,
      trace (sys fr') = (trace (sys fr) ++ evs)%list /\
      forall resp,
        In (EvDo u) evs -> Do client u = Ok resp ->
        exists rest,
          evs = (opening u path ++ fst (open_reader w d (Body resp)) ++ rest)%list /\
          occurrences KNewReader rest = 0%nat /\
          forall dst src,
            In (EvCopy dst src) rest ->
            snd (open_reader w d (Body resp)) = Ok src.
Proof.
  intros H%Download_cases.
  split; [apply selected_zgz|]. split; [apply selected_upper_case|].
  destruct (selected_total (Path u)) as [d Hd]. exists d.
  split; [done|].
  split; [intros d' Hd'; by apply (selected_unique (Path u))|].
  assert (Hstage : forall body,
             decoder_stage w u body = open_reader w d body)
    by (intros; by apply selected_decoder_stage).
  destruct r as [[]|e].
  - destruct H as
      [f1 tmp resp evs r Hacq Hreq Hdo Hdec Hcopy Heof Hclose Hren Hdir Hne].
    eexists. cbn [leave sys trace]. split; [reflexivity|].
    intros resp' _ Hdo'. rewrite Hdo in Hdo'. injection Hdo' as <-.
    rewrite Hstage in Hdec. rewrite Hdec. cbn [fst snd].
    eexists. split; [reflexivity|]. split; [by vm_compute|].
    intros dst src Hin. in_cases Hin.
  - destruct H as [s Hrun].
    inversion Hrun; subst; (eexists; cbn [leave sys trace];
                            split; [reflexivity|]); intros resp' Hin Hdo';
      try (exfalso; in_cases Hin; fail);
      try congruence;
      match goal with
      | Hdo : Do client u = Ok _ |- _ =>
          rewrite Hdo in Hdo'; injection Hdo' as <-
      end;
      match goal with
      | Hdec : decoder_stage _ _ _ = _ |- _ =>
          rewrite Hstage in Hdec; rewrite Hdec; cbn [fst snd]
      end;
      (eexists; split; [reflexivity|]; split; [by vm_compute|]);
      intros dst src Hin'; in_cases Hin'.
Qed.

(** C4 at a URL whose path ends in ["zgz"]. *)
Lemma C4_witness :
  Download sample_world gzip_client (sample_url "/blobzgz")
           "data.txt" sample_frame = (Ok tt, snd C4_sample) /\
  exists d,
    selected "/blobzgz" d /\
    (forall d', selected "/blobzgz" d' -> d' = d) /\
    exists evs,
      trace (sys (snd C4_sample)) = (trace (sys sample_frame) ++ evs)%list /\
      forall resp,
        In (EvDo (sample_url "/blobzgz")) evs ->
        Do gzip_client (sample_url "/blobzgz") = Ok resp ->
        exists rest,
          evs = (opening (sample_url "/blobzgz") "data.txt" ++
                 fst (open_reader sample_world d (Body resp)) ++ rest)%list /\
          occurrences KNewReader rest = 0%nat /\
          forall dst src,
            In (EvCopy dst src) rest ->
            snd (open_reader sample_world d (Body resp)) = Ok src.
Proof.
  assert (H : Download sample_world gzip_client (sample_url "/blobzgz")
                "data.txt" sample_frame = (Ok tt, snd C4_sample))
    by (vm_compute; reflexivity).
  split; [exact H|].
  exact (proj2 (proj2 (C4_decoder_selection _ _ _ _ _ _ _ H))).
Defined.

(** C5: the status code of the response is never looked at.  Whatever the
    code (500 included), when the client answers and no later stage fails
    the call returns success and the destination holds what the selected
    reader yields, which for a path without compression suffix is the body
    as it came; and replacing the status code of every response changes
    nothing. *)
Theorem C5_no_status_validation
        (w : World) (client : Client) (u : URL) (path : string) (fr : Frame)
        (f1 : FS) (tmp : os_File) (resp : Response) (d : decoder)
        (r : Reader) :
  acquired w path fr f1 tmp ->
  w_newRequest_err w u = None ->
  Do client u = Ok resp ->
  selected (Path u) d ->
  snd (open_reader w d (Body resp)) = Ok r ->
  r_err r = None ->
  w_write_err w = None ->
  w_close_err w = None ->
  w_rename_err w = None ->
  is_dir f1 (at_path w path) = false ->
  is_dir f1 (removelast (at_path w path)) = true ->
  exists fr',
    Download w client u path fr = (Ok tt, fr') /\
    fs (sys fr') !! at_path w path = Some (Regular (r_data r)) /\
    (d = Identity -> r = Body resp) /\
    forall code,
      Download w (with_status code client) u path fr = (Ok tt, fr').
Proof.
  intros Hacq Hreq Hdo Hd Hopen Heof Hwrite Hclose Hrename Hdest Hparent.
  destruct (Download_succeeds _ _ _ _ _ _ _ _ _ _ Hacq Hreq Hdo Hd Hopen Heof
              Hwrite Hclose Hrename Hdest Hparent) as (fr' & H & Hfs).
  exists fr'. split; [done|].
  split; [rewrite Hfs; apply lookup_insert_eq|].
  split; [intros ->; cbn in Hopen; by injection Hopen|].
  intros code. by rewrite Download_with_status.
Qed.

(** C5 at a server that answers 500 with a body. *)
Lemma C5_witness :
  StatusCode (mkResponse 500 (mkReader hello None)) = 500%Z /\
  exists fr',
    Download sample_world failing_server (sample_url "/report")
             "out/data.txt" sample_frame = (Ok tt, fr') /\
    fs (sys fr') !! at_path sample_world "out/data.txt"
    = Some (Regular hello) /\
    (Identity = Identity -> mkReader hello None = mkReader hello None) /\
    forall code,
      Download sample_world (with_status code failing_server)
               (sample_url "/report") "out/data.txt" sample_frame
      = (Ok tt, fr').
Proof.
  split; [reflexivity|].
  apply (C5_no_status_validation sample_world failing_server
           (sample_url "/report") "out/data.txt" sample_frame
           out_prepared out_tmp (mkResponse 500 (mkReader hello None))
           Identity (mkReader hello None)).
  - unfold acquired; repeat split; vm_compute; reflexivity.
  - reflexivity.
  - reflexivity.
  - exact selected_none.
  - reflexivity.
  - reflexivity.
  - reflexivity.
  - reflexivity.
  - reflexivity.
  - vm_compute; reflexivity.
  - vm_compute; reflexivity.
Defined.

(** C6: with gzip or xz selected, a stream whose header the reader's
    constructor rejects makes the call return that error before anything is
    copied; with bzip2 selected, constructing the reader cannot fail, the
    copy is always started, and an invalid stream shows as the error of the
    copy. *)
Theorem C6_invalid_header_by_format
        (w : World) (client : Client) (u : URL) (path : string) (fr : Frame)
        (f1 : FS) (tmp : os_File) (resp : Response) :
  acquired w path fr f1 tmp ->
  w_newRequest_err w u = None ->
  Do client u = Ok resp ->
  (forall e,
      selected (Path u) Gzip ->
      gzip_NewReader w (Body resp) = Err e ->
      Download w client u path fr =
      (Err e,
       leave fr (cleaned w f1 tmp [])
         (opening u path ++
          [EvGzipNewReader (Body resp);
           EvBodyClose; EvRemove (Name tmp); EvFileClose (Name tmp)])
         false)) /\
  (forall e,
      selected (Path u) Xz ->
      xz_NewReader w (Body resp) = Err e ->
      Download w client u path fr =
      (Err e,
       leave fr (cleaned w f1 tmp [])
         (opening u path ++
          [EvXzNewReader (Body resp);
           EvBodyClose; EvRemove (Name tmp); EvFileClose (Name tmp)])
         false)) /\
  (selected (Path u) Bzip2 ->
   (exists rest,
       trace (sys (snd (Download w client u path fr))) =
       (trace (sys fr) ++ opening u path ++
        [EvBzip2NewReader (Body resp);
         EvCopy (Name tmp) (bzip2_NewReader w (Body resp))] ++ rest)%list) /\
   (forall e,
       r_err (bzip2_NewReader w (Body resp)) = Some e ->
       w_write_err w = None ->
       Download w client u path fr =
       (Err e,
        leave fr (cleaned w f1 tmp (r_data (bzip2_NewReader w (Body resp))))
          (opening u path ++
           [EvBzip2NewReader (Body resp);
            EvCopy (Name tmp) (bzip2_NewReader w (Body resp));
            EvBodyClose; EvRemove (Name tmp); EvFileClose (Name tmp)])
          false))).
Proof.
  intros Hacq Hreq Hdo.
  split; [|split].
  - intros e Hd He. eapply Run_Download.
    eapply (Run_decoder _ _ _ _ _ e f1 tmp resp [EvGzipNewReader (Body resp)]);
      try done.
    rewrite (selected_decoder_stage w u _ Gzip Hd). cbn. by rewrite He.
  - intros e Hd He. eapply Run_Download.
    eapply (Run_decoder _ _ _ _ _ e f1 tmp resp [EvXzNewReader (Body resp)]);
      try done.
    rewrite (selected_decoder_stage w u _ Xz Hd). cbn. by rewrite He.
  - intros Hd.
    pose proof (selected_decoder_stage w u (Body resp) Bzip2 Hd) as Hstage.
    cbn in Hstage. split.
    + destruct (Download w client u path fr) as [r fr'] eqn:H.
      apply Download_cases in H. destruct r as [[]|e].
      * inversion H; subst; agree. cbn. eexists. reflexivity.
      * destruct H as [s H].
        inversion H; subst; agree; cbn; eexists; reflexivity.
    + intros e He Hwrite. eapply Run_Download.
      eapply (Run_copy _ _ _ _ _ e f1 tmp resp
                [EvBzip2NewReader (Body resp)]
                (bzip2_NewReader w (Body resp))
                (r_data (bzip2_NewReader w (Body resp)))); try done.
      unfold copy_result. by rewrite Hwrite, He.
Qed.

(** C6 at a body that is not a gzip stream, for a URL selecting gzip. *)
Lemma C6_witness :
  Download sample_world not_gzip (sample_url "/data.gz")
           "out/data.txt" sample_frame
  = (Err (ErrBase "gzip: invalid header"),
     leave sample_frame out_prepared
       (opening (sample_url "/data.gz") "out/data.txt" ++
        [EvGzipNewReader (mkReader page None);
         EvBodyClose; EvRemove (Name out_tmp); EvFileClose (Name out_tmp)])
       false).
Proof.
  apply (proj1 (C6_invalid_header_by_format sample_world not_gzip
                  (sample_url "/data.gz") "out/data.txt" sample_frame
                  out_prepared out_tmp
                  (mkResponse 200 (mkReader page None))
                  ltac:(unfold acquired; repeat split; vm_compute; reflexivity)
                  eq_refl eq_refl)).
  - exact selected_gz.
  - reflexivity.
Defined.

(** C7: [Decompress] does exactly what [Download] does: same result, same
    final file system, same calls in the same order. *)
Theorem C7_Decompress_is_Download
        (w : World) (client : Client) (u : URL) (path : string) (fr : Frame) :
  Decompress w client u path fr = Download w client u path fr.
Proof. reflexivity. Qed.



(** C9, as stated, fails: a gzip stream that ends inside its header fails
    the construction of the reader, one that ends after it fails the copy,
    and the two calls return the same bare error value. *)
Lemma C9_counterexample :
  fst C9_sample_init = Err (ErrBase "unexpected EOF") /\
  fst C9_sample_copy = Err (ErrBase "unexpected EOF") /\
  is_wrapped (ErrBase "unexpected EOF") = false /\
  occurrences KCopy (trace (sys (snd C9_sample_init))) = 0%nat /\
  occurrences KCopy (trace (sys (snd C9_sample_copy))) = 1%nat.
Proof. vm_compute. auto. Qed.

(** C9, amended: the first error ends the call: no call of a later stage is
    made and no call is made twice, the closing of the temporary file
    apart.  The error returned is the failing call's own error, unchanged,
    except for two stages that add context: creating the temporary file
    (["create temporary file: "]) and closing it
    (["write and close temporary file: "]). *)
Theorem C9_errors_returned_at_once
        (w : World) (client : Client) (u : URL) (path : string)
        (fr fr' : Frame) (e : error) :
  Download w client u path fr = (Err e, fr') ->
  exists s evs,
    trace (sys fr') = (trace (sys fr) ++ evs)%list /\
    (forall ev s',
        In ev evs -> stage_of_kind (kind_of ev) = Some s' ->
        (rank s' <= rank s)%nat) /\
    (forall k, k <> KFileClose -> (occurrences k evs <= 1)%nat) /\
    match s with
    | DirectoryCreation =>
        fst (mkdir_all w (dir_of path) mode_0o755 (fs (sys fr))) = Err e
    | TempFileCreation =>
        exists e0,
          e = fmt_Errorf "create temporary file: " e0 /\
          Error e = "create temporary file: " ++ Error e0 /\
          fst (create_temp w (dir_of path) (base_of path)
                 (snd (mkdir_all w (dir_of path) mode_0o755 (fs (sys fr)))))
          = Err e0
    | RequestConstruction => w_newRequest_err w u = Some e
    | Transport => Do client u = Err e
    | DecompressionInit =>
        exists resp d,
          Do client u = Ok resp /\ selected (Path u) d /\
          snd (open_reader w d (Body resp)) = Err e
    | Copy =>
        exists resp d r,
          Do client u = Ok resp /\ selected (Path u) d /\
          snd (open_reader w d (Body resp)) = Ok r /\
          fst (copy_result w r) = Err e
    | Finalize =>
        exists e0,
          e = fmt_Errorf "write and close temporary file: " e0 /\
          Error e = "write and close temporary file: " ++ Error e0 /\
          w_close_err w = Some e0
    | Rename =>
        exists f1 tmp c,
          acquired w path fr f1 tmp /\
          fst (rename_file w (Name tmp) path
                 (<[at_path w (Name tmp) := Regular c]> f1)) = Err e
    end.
Proof.
  intros H%Download_cases. destruct H as [s H]. exists s.
  destruct (selected_total (Path u)) as [d Hd].
  assert (Hstage : forall body,
             decoder_stage w u body = open_reader w d body)
    by (intros; by apply selected_decoder_stage).
  inversion H; subst; (eexists; cbn [leave sys trace];
                       split; [reflexivity|]);
    try match goal with Hdec : decoder_stage _ _ _ = _ |- _ =>
          rewrite Hstage in Hdec
        end;
    (split;
     [ intros ev s' Hin Hs;
       try (destruct d; cbn [open_reader] in *; simplify_eq);
       cbn in Hin; repeat (destruct Hin as [<-|Hin]);
       try done; cbn in Hs; simplify_eq; cbn; lia
     | split;
       [ intros k Hk;
         try (destruct d; cbn [open_reader] in *; simplify_eq);
         destruct k; try done; vm_compute; lia
       | ] ]);
    repeat match goal with
           | |- exists _, _ => eexists
           | |- _ /\ _ => split
           end;
    try done; try eassumption;
    repeat (match goal with
            | Hx : _ = (_, _) |- _ => rewrite Hx
            end; cbn [fst snd]);
    done.
Qed.

(** C9, amended, at a server that cannot be reached. *)
Lemma C9_witness :
  Download sample_world unreachable (sample_url "/data")
           "data.txt" sample_frame
  = (Err (ErrBase "connection refused"), snd C9_sample) /\
  exists s evs,
    trace (sys (snd C9_sample)) = (trace (sys sample_frame) ++ evs)%list /\
    (forall ev s',
        In ev evs -> stage_of_kind (kind_of ev) = Some s' ->
        (rank s' <= rank s)%nat) /\
    (forall k, k <> KFileClose -> (occurrences k evs <= 1)%nat) /\
    match s with
    | DirectoryCreation =>
        fst (mkdir_all sample_world (dir_of "data.txt") mode_0o755
               (fs (sys sample_frame))) = Err (ErrBase "connection refused")
    | TempFileCreation =>
        exists e0,
          ErrBase "connection refused"
          = fmt_Errorf "create temporary file: " e0 /\
          Error (ErrBase "connection refused")
          = "create temporary file: " ++ Error e0 /\
          fst (create_temp sample_world (dir_of "data.txt")
                 (base_of "data.txt")
                 (snd (mkdir_all sample_world (dir_of "data.txt") mode_0o755
                         (fs (sys sample_frame)))))
          = Err e0
    | RequestConstruction =>
        w_newRequest_err sample_world (sample_url "/data")
        = Some (ErrBase "connection refused")
    | Transport =>
        Do unreachable (sample_url "/data")
        = Err (ErrBase "connection refused")
    | DecompressionInit =>
        exists resp d,
          Do unreachable (sample_url "/data") = Ok resp /\
          selected "/data" d /\
          snd (open_reader sample_world d (Body resp))
          = Err (ErrBase "connection refused")
    | Copy =>
        exists resp d r,
          Do unreachable (sample_url "/data") = Ok resp /\
          selected "/data" d /\
          snd (open_reader sample_world d (Body resp)) = Ok r /\
          fst (copy_result sample_world r) = Err (ErrBase "connection refused")
    | Finalize =>
        exists e0,
          ErrBase "connection refused"
          = fmt_Errorf "write and close temporary file: " e0 /\
          Error (ErrBase "connection refused")
          = "write and close temporary file: " ++ Error e0 /\
          w_close_err sample_world = Some e0
    | Rename =>
        exists f1 tmp c,
          acquired sample_world "data.txt" sample_frame f1 tmp /\
          fst (rename_file sample_world (Name tmp) "data.txt"
                 (<[at_path sample_world (Name tmp) := Regular c]> f1))
          = Err (ErrBase "connection refused")
    end.
Proof.
  assert (H : Download sample_world unreachable (sample_url "/data")
                "data.txt" sample_frame
              = (Err (ErrBase "connection refused"), snd C9_sample))
    by (vm_compute; reflexivity).
  split; [exact H|].
  exact (C9_errors_returned_at_once _ _ _ _ _ _ _ H).
Defined.

(** C10: when directory preparation succeeded and the call then fails,
    every directory it created is still there: the file system the call
    leaves is the one directory preparation produced, but for the temporary
    file where the system refused to unlink it.  The cleanup removes nothing
    but the temporary file. *)
Theorem C10_directories_not_rolled_back
        (w : World) (client : Client) (u : URL) (path : string)
        (fr fr' : Frame) (e : error) (f1 : FS) :
  mkdir_all w (dir_of path) mode_0o755 (fs (sys fr)) = (Ok tt, f1) ->
  Download w client u path fr = (Err e, fr') ->
  (w_remove_err w = None -> fs (sys fr') = f1) /\
  (forall l,
      fs (sys fr') !! l = f1 !! l \/
      exists tmp c,
        acquired w path fr f1 tmp /\ l = at_path w (Name tmp) /\
        f1 !! l = None /\ fs (sys fr') !! l = Some (Regular c)) /\
  (forall l p,
      fs (sys fr) !! l = None -> f1 !! l = Some (Directory p) ->
      fs (sys fr') !! l = Some (Directory p)) /\
  exists evs,
    trace (sys fr') = (trace (sys fr) ++ evs)%list /\
    (occurrences KRemove evs <= 1)%nat /\
    forall name,
      In (EvRemove name) evs ->
      exists tmp, acquired w path fr f1 tmp /\ name = Name tmp.
Proof.
  intros Hmk H%Download_cases. destruct H as [s H].
  assert (Hfs : forall l,
             fs (sys fr') !! l = f1 !! l \/
             exists tmp c,
               acquired w path fr f1 tmp /\ l = at_path w (Name tmp) /\
               f1 !! l = None /\ fs (sys fr') !! l = Some (Regular c)).
  { intros l.
    destruct (Run_fs _ _ _ _ _ _ _ _ H) as [-> | (f1' & tmp & c & Hacq & ->)];
      [left; by rewrite Hmk|].
    pose proof Hacq as (Hmk' & _ & Hfresh).
    rewrite Hmk in Hmk'. injection Hmk' as <-.
    unfold cleaned. destruct (w_remove_err w); [|by left].
    destruct (decide (l = at_path w (Name tmp))) as [->|Hne].
    - right. exists tmp, c. by rewrite lookup_insert_eq.
    - left. by rewrite lookup_insert_ne. }
  split.
  { intros Hrm. rewrite (Run_fs_removed _ _ _ _ _ _ _ _ Hrm H). by rewrite Hmk. }
  split; [exact Hfs|]. split.
  { intros l p _ Hl. destruct (Hfs l) as [-> | (tmp & c & _ & _ & Hn & _)];
      [done|congruence]. }
  inversion H; subst;
    try match goal with
        | Hacq : acquired _ _ _ _ _ |- _ =>
            pose proof Hacq as (Hmk' & _);
            rewrite Hmk in Hmk'; injection Hmk' as <-
        end;
    (eexists; cbn [leave sys trace]; split; [reflexivity|]);
    try match goal with Hdec : decoder_stage _ _ _ = _ |- _ =>
          decoder_events Hdec end;
    (split; [vm_compute; lia|]);
    intros name Hin; cbn in Hin; repeat (destruct Hin as [Hin|Hin]);
    try done; try discriminate; simplify_eq; eauto.
Qed.

(** C10 at a download into a new directory from a server that cannot be
    reached: the directory stays. *)
Lemma C10_witness :
  mkdir_all sample_world (dir_of "./out/data.txt") mode_0o755
            (fs (sys sample_frame)) = (Ok tt, out_prepared) /\
  Download sample_world unreachable (sample_url "/data.gz")
           "./out/data.txt" sample_frame
  = (Err (ErrBase "connection refused"), snd C10_sample) /\
  fs (sys sample_frame) !! ["home"; "u"; "out"] = None /\
  fs (sys (snd C10_sample)) !! ["home"; "u"; "out"]
  = Some (Directory mode_0o755).
Proof.
  assert (Hmk : mkdir_all sample_world (dir_of "./out/data.txt") mode_0o755
                  (fs (sys sample_frame)) = (Ok tt, out_prepared))
    by (vm_compute; reflexivity).
  assert (H : Download sample_world unreachable (sample_url "/data.gz")
                "./out/data.txt" sample_frame
              = (Err (ErrBase "connection refused"), snd C10_sample))
    by (vm_compute; reflexivity).
  assert (Hnew : fs (sys sample_frame) !! ["home"; "u"; "out"] = None)
    by (vm_compute; reflexivity).
  split; [exact Hmk|]. split; [exact H|]. split; [exact Hnew|].
  destruct (C10_directories_not_rolled_back _ _ _ _ _ _ _ _ Hmk H)
    as (_ & _ & Hkept & _).
  apply Hkept; [exact Hnew|]. vm_compute; reflexivity.
Defined.

(** * Further properties of the program *)

(** ** Suffixes *)

Lemma append_inj_length (a b x y : string) :
  a ++ x = b ++ y -> String.length x = String.length y -> a = b /\ x = y.
Proof.
  revert b; induction a as [|c a IH]; intros [|c' b] H Hlen.
  - done.
  - change (x = String c' (b ++ y)) in H. subst x.
    cbn in Hlen. rewrite append_length in Hlen. lia.
  - change (String c (a ++ x) = y) in H. subst y.
    cbn in Hlen. rewrite append_length in Hlen. lia.
  - rewrite !append_cons in H. injection H as -> H.
    destruct (IH _ H Hlen) as [-> ->]. done.
Qed.

Lemma ends_in_clash (p s1 s2 tail1 tail2 : string) :
  ends_in p (s1 ++ tail1) -> ends_in p (s2 ++ tail2) ->
  String.length tail1 = String.length tail2 -> tail1 = tail2.
Proof.
  intros [a ->] [b H] Hlen. rewrite <- !append_assoc in H.
  by destruct (append_inj_length _ _ _ _ H Hlen).
Qed.

(** X1: no path ends in two of the three suffixes the program tests, so the
    order of the cases of its [switch] does not matter: each decoder is
    selected exactly when the path ends in its own suffix. *)
Theorem X1_suffixes_exclude_one_another (p : string) :
  (strings_HasSuffix p "gz" = true ->
   strings_HasSuffix p "bz2" = false /\ strings_HasSuffix p "xz" = false) /\
  (strings_HasSuffix p "bz2" = true -> strings_HasSuffix p "xz" = false) /\
  (selected p Bzip2 <-> ends_in p "bz2") /\
  (selected p Xz <-> ends_in p "xz").
Proof.
  assert (Hgb : ends_in p "gz" -> ends_in p "bz2" -> False).
  { intros Hg Hb.
    by pose proof (ends_in_clash p EmptyString "b" "gz" "z2" Hg Hb eq_refl). }
  assert (Hgx : ends_in p "gz" -> ends_in p "xz" -> False).
  { intros Hg Hx.
    by pose proof
         (ends_in_clash p EmptyString EmptyString "gz" "xz" Hg Hx eq_refl). }
  assert (Hbx : ends_in p "bz2" -> ends_in p "xz" -> False).
  { intros Hb Hx.
    by pose proof (ends_in_clash p "b" EmptyString "z2" "xz" Hb Hx eq_refl). }
  split; [|split; [|split]].
  - intros Hg%HasSuffix_ends_in. split; apply not_true_iff_false;
      intros H%HasSuffix_ends_in; eauto.
  - intros Hb%HasSuffix_ends_in. apply not_true_iff_false.
    intros H%HasSuffix_ends_in; eauto.
  - cbn. split; [tauto|]. intros Hb. split; [|done]. eauto.
  - cbn. split; [tauto|]. intros Hx. split; [eauto|]. split; [eauto|done].
Qed.

(** X1 at a path that ends in ["gz"]. *)
Lemma X1_witness :
  strings_HasSuffix "/data.gz" "gz" = true /\
  strings_HasSuffix "/data.gz" "bz2" = false /\
  strings_HasSuffix "/data.gz" "xz" = false.
Proof.
  assert (H : strings_HasSuffix "/data.gz" "gz" = true) by reflexivity.
  split; [exact H|].
  exact (proj1 (X1_suffixes_exclude_one_another "/data.gz") H).
Defined.

(** X2: a path shorter than two bytes, the empty path included, ends in
    none of the suffixes: the length guard of [strings.HasSuffix] answers
    before any byte is compared, and the body is copied as it is. *)
Theorem X2_short_path_selects_none (p : string) :
  (String.length p < 2)%nat ->
  strings_HasSuffix p "gz" = false /\
  strings_HasSuffix p "bz2" = false /\
  strings_HasSuffix p "xz" = false /\
  selected p Identity.
Proof.
  intros Hlen.
  assert (H : forall suf, (2 <= String.length suf)%nat ->
                          strings_HasSuffix p suf = false).
  { intros suf Hsuf. unfold strings_HasSuffix.
    replace (String.length suf <=? String.length p)%nat with false; [done|].
    symmetry. apply Nat.leb_gt. lia. }
  assert (Hgz := H "gz" ltac:(cbn; lia)).
  assert (Hbz := H "bz2" ltac:(cbn; lia)).
  assert (Hxz := H "xz" ltac:(cbn; lia)).
  split; [done|]. split; [done|]. split; [done|].
  cbn. rewrite <- !HasSuffix_ends_in, Hgz, Hbz, Hxz. done.
Qed.

(** X2 at a path of one byte. *)
Lemma X2_witness :
  (String.length "z" < 2)%nat /\
  strings_HasSuffix "z" "gz" = false /\
  strings_HasSuffix "z" "bz2" = false /\
  strings_HasSuffix "z" "xz" = false /\
  selected "z" Identity.
Proof.
  assert (H : (String.length "z" < 2)%nat) by (cbn; lia).
  split; [exact H|]. exact (X2_short_path_selects_none "z" H).
Defined.

(** ** What a call leaves alone *)

(** The temporary file is not the destination, and nothing was at its
    location before the call. *)
Lemma acquired_fresh (w : World) (path : string) (fr : Frame) (f1 : FS)
      (tmp : os_File) :
  acquired w path fr f1 tmp ->
  at_path w (Name tmp) <> at_path w path /\
  fs (sys fr) !! at_path w (Name tmp) = None.
Proof.
  intros (Hmk & Htmp & Hfresh).
  apply create_temp_inv in Htmp as (_ & _ & Hne & _). split; [done|].
  pose proof (mkdir_walk_grows _ _ _ _ _ _ _ Hmk (at_path w (Name tmp))) as Hk.
  destruct (fs (sys fr) !! at_path w (Name tmp)); [congruence|done].
Qed.

(** Away from the destination a call leaves what directory preparation
    left, but for a temporary file that could not be unlinked. *)
Lemma Download_elsewhere (w : World) (client : Client) (u : URL)
      (path : string) (fr fr' : Frame) (r : result unit) (l : list string) :
  Download w client u path fr = (r, fr') ->
  l <> at_path w path ->
  fs (sys fr') !! l =
  snd (mkdir_all w (dir_of path) mode_0o755 (fs (sys fr))) !! l \/
  exists f1 tmp c e0 e,
    acquired w path fr f1 tmp /\ l = at_path w (Name tmp) /\
    w_remove_err w = Some e0 /\ r = Err e /\
    fs (sys fr') !! l = Some (Regular c).
Proof.
  intros H%Download_cases Hl. destruct r as [[]|e].
  - left. destruct H as [f1 tmp resp evs r [Hmk _] _ _ _ _ _ _ _ _ _].
    cbn [leave sys fs]. rewrite Hmk. by apply lookup_insert_ne.
  - destruct H as [s Hrun].
    destruct (Run_fs _ _ _ _ _ _ _ _ Hrun)
      as [-> | (f1 & tmp & c & Hacq & ->)]; [by left|].
    pose proof Hacq as (Hmk & _). rewrite Hmk. cbn [snd].
    unfold cleaned. destruct (w_remove_err w) as [e0|] eqn:Hrm; [|by left].
    destruct (decide (l = at_path w (Name tmp))) as [->|Hne].
    + right. exists f1, tmp, c, e0, e. by rewrite lookup_insert_eq.
    + left. by rewrite lookup_insert_ne.
Qed.

(** X3: whatever a call returns, it neither changes nor removes any entry
    of the file system other than the destination: every file and directory
    that existed elsewhere is still there, unchanged.  What can appear
    elsewhere is a directory that directory preparation made on its way,
    with the mode 0o755 less the umask, and, after an error, the temporary
    file when the system refused to unlink it. *)
Theorem X3_other_entries_untouched
        (w : World) (client : Client) (u : URL) (path : string)
        (fr fr' : Frame) (r : result unit) (l : list string) :
  Download w client u path fr = (r, fr') ->
  l <> at_path w path ->
  match fs (sys fr) !! l with
  | Some n => fs (sys fr') !! l = Some n
  | None =>
      fs (sys fr') !! l = None \/
      (fs (sys fr') !! l = Some (Directory (masked w mode_0o755)) /\
       In l (ancestors w (dir_of path))) \/
      exists f1 tmp c e0 e,
        acquired w path fr f1 tmp /\ l = at_path w (Name tmp) /\
        w_remove_err w = Some e0 /\ r = Err e /\
        fs (sys fr') !! l = Some (Regular c)
  end.
Proof.
  intros H Hl.
  destruct (Download_elsewhere _ _ _ _ _ _ _ _ H Hl)
    as [-> | (f1 & tmp & c & e0 & e & Hacq & -> & Hrest)].
  - destruct (mkdir_all w (dir_of path) mode_0o755 (fs (sys fr)))
      as [r0 f1] eqn:Hmk. cbn [snd].
    pose proof (mkdir_walk_grows _ _ _ _ _ _ _ Hmk l) as Hgrow.
    destruct (fs (sys fr) !! l) as [n|] eqn:Hold; [done|].
    destruct Hgrow as [Hnone|Hnew]; [by left|]. right; left. split; [done|].
    by destruct (mkdir_walk_new _ _ _ _ _ _ _ Hmk _ _ Hold Hnew).
  - destruct (acquired_fresh _ _ _ _ _ Hacq) as [_ ->].
    right; right. exists f1, tmp, c, e0, e. tauto.
Qed.

(** X3 at a download that fails where the temporary file cannot be
    unlinked: the directory above the working directory is as it was, and
    the temporary file is what appeared. *)
Lemma X3_witness :
  Download busy_world unreachable (sample_url "/data.gz")
           "out/data.txt" sample_frame
  = (Err (ErrBase "connection refused"), snd C3_sample_busy) /\
  ["home"] <> at_path busy_world "out/data.txt" /\
  at_path busy_world (Name out_tmp) <> at_path busy_world "out/data.txt" /\
  fs (sys (snd C3_sample_busy)) !! ["home"] = Some (Directory mode_0o755) /\
  fs (sys sample_frame) !! at_path busy_world (Name out_tmp) = None /\
  fs (sys (snd C3_sample_busy)) !! at_path busy_world (Name out_tmp)
  = Some (Regular []).
Proof.
  assert (H : Download busy_world unreachable (sample_url "/data.gz")
                "out/data.txt" sample_frame
              = (Err (ErrBase "connection refused"), snd C3_sample_busy))
    by (vm_compute; reflexivity).
  assert (Hl : ["home"] <> at_path busy_world "out/data.txt")
    by (vm_compute; discriminate).
  assert (Ht : at_path busy_world (Name out_tmp)
               <> at_path busy_world "out/data.txt")
    by (vm_compute; discriminate).
  split; [exact H|]. split; [exact Hl|]. split; [exact Ht|].
  split; [exact (X3_other_entries_untouched _ _ _ _ _ _ _ _ H Hl)|].
  split; vm_compute; reflexivity.
Defined.

(** X4: a destination whose base name is empty (the empty path, or a path
    that ends in a separator) or is ["."] names the directory the program
    prepares, and the call never returns success for it. *)
Theorem X4_directory_destination_fails
        (w : World) (client : Client) (u : URL) (path : string) (fr : Frame) :
  base_of path = EmptyString \/ base_of path = "." ->
  at_path w path = at_path w (dir_of path) /\
  exists e, fst (Download w client u path fr) = Err e.
Proof.
  intros Hbase.
  assert (Hsame : at_path w path = at_path w (dir_of path)).
  { unfold at_path. rewrite (resolve_split _ path).
    by destruct Hbase as [-> | ->]. }
  split; [done|].
  destruct (Download w client u path fr) as [r fr'] eqn:H.
  apply Download_cases in H. destruct r as [[]|e]; [|by exists e].
  exfalso.
  destruct H as [f1 tmp resp evs r (_ & Htmp & _) _ _ _ _ _ _ _ Hdir _].
  apply create_temp_inv in Htmp as (_ & _ & _ & Hprepared & _).
  rewrite Hsame in Hdir. congruence.
Qed.

(** X4 at the destination ["out/"], with a server that answers. *)
Lemma X4_witness :
  base_of "out/" = EmptyString /\
  at_path sample_world "out/" = at_path sample_world (dir_of "out/") /\
  exists e,
    fst (Download sample_world gzip_client (sample_url "/data.gz")
           "out/" sample_frame) = Err e.
Proof.
  assert (H : base_of "out/" = EmptyString) by reflexivity.
  split; [exact H|].
  exact (X4_directory_destination_fails sample_world gzip_client
           (sample_url "/data.gz") "out/" sample_frame (or_introl H)).
Defined.

(** ** The order of the calls *)

(** Every run, with the calls it made spelled out: case analysis on the
    exit path and on the decoder. *)
Ltac each_run H :=
  let s := fresh "s" in
  match type of H with
  | Download _ _ _ _ _ = (?r, _) =>
      apply Download_cases in H;
      destruct r as [[]|?];
      [ inversion H; subst
      | destruct H as [s H]; inversion H; subst ];
      try match goal with
          | Hdec : decoder_stage _ _ _ = _ |- _ => decoder_events Hdec
          end;
      (eexists; cbn [leave sys trace]; split; [reflexivity|])
  end.

Ltac members H :=
  cbn in H; repeat (destruct H as [H|H]); try done; try discriminate;
  simplify_eq.

(** X5: the network is used only once the temporary file exists: a request
    is built, and sent, only after directory preparation and temp-file
    creation have succeeded; it is a GET for the URL given, it is sent only
    if it could be built, and at most one is built and sent per call. *)
Theorem X5_request_after_acquisition
        (w : World) (client : Client) (u : URL) (path : string)
        (fr fr' : Frame) (r : result unit) :
  Download w client u path fr = (r, fr') ->
  exists evs,
    trace (sys fr') = (trace (sys fr) ++ evs)%list /\
    (forall m u',
        In (EvNewRequest m u') evs ->
        m = "GET" /\ u' = u /\ exists f1 tmp, acquired w path fr f1 tmp) /\
    (forall u', In (EvDo u') evs -> u' = u /\ w_newRequest_err w u = None) /\
    (occurrences KNewRequest evs <= 1)%nat /\
    (occurrences KDo evs <= 1)%nat.
Proof.
  intros H. each_run H;
    (split; [intros m u' Hin; members Hin; eauto|]);
    (split; [intros u' Hin; members Hin; eauto|]);
    vm_compute; lia.
Qed.

(** X5 at a gzip download that succeeds. *)
Lemma X5_witness :
  Download sample_world gzip_client (sample_url "/data.gz")
           "./out/data.txt" sample_frame = (Ok tt, snd C1_sample) /\
  exists evs,
    trace (sys (snd C1_sample)) = (trace (sys sample_frame) ++ evs)%list /\
    (forall m u',
        In (EvNewRequest m u') evs ->
        m = "GET" /\ u' = sample_url "/data.gz" /\
        exists f1 tmp,
          acquired sample_world "./out/data.txt" sample_frame f1 tmp) /\
    (forall u',
        In (EvDo u') evs ->
        u' = sample_url "/data.gz" /\
        w_newRequest_err sample_world (sample_url "/data.gz") = None) /\
    (occurrences KNewRequest evs <= 1)%nat /\
    (occurrences KDo evs <= 1)%nat.
Proof.
  assert (H : Download sample_world gzip_client (sample_url "/data.gz")
                "./out/data.txt" sample_frame = (Ok tt, snd C1_sample))
    by (vm_compute; reflexivity).
  split; [exact H|].
  exact (X5_request_after_acquisition _ _ _ _ _ _ _ H).
Defined.

(** X6: nothing the call opened stays open.  The response body is closed
    exactly once in every run in which [client.Do] returned a response, and
    never otherwise; once the temporary file has been created, closing it is
    the last call of every run (at most the second close of that file), and
    no other file is ever closed. *)
Theorem X6_everything_opened_is_closed
        (w : World) (client : Client) (u : URL) (path : string)
        (fr fr' : Frame) (r : result unit) :
  Download w client u path fr = (r, fr') ->
  exists evs,
    trace (sys fr') = (trace (sys fr) ++ evs)%list /\
    occurrences KBodyClose evs =
      match Do client u with
      | Ok _ => occurrences KDo evs
      | Err _ => 0%nat
      end /\
    (forall name,
        In (EvFileClose name) evs ->
        exists f1 tmp, acquired w path fr f1 tmp /\ name = Name tmp) /\
    (forall f1 tmp,
        acquired w path fr f1 tmp ->
        last evs = Some (EvFileClose (Name tmp)) /\
        (1 <= occurrences KFileClose evs <= 2)%nat).
Proof.
  intros H. each_run H;
    (split;
     [ repeat match goal with
              | Hdo : Do client u = _ |- _ => rewrite Hdo; clear Hdo
              end;
       try (destruct (Do client u)); by vm_compute
     | ]);
    (split; [intros name Hin; members Hin; eauto|]);
    intros f1' tmp' Hacq'; agree; (split; [done|]); vm_compute; lia.
Qed.

(** X6 at a download that fails when the temporary file is closed: the
    file is closed twice. *)
Lemma X6_witness :
  Download full_disk_world gzip_client (sample_url "/data.gz")
           "out/data.txt" sample_frame
  = (Err (fmt_Errorf "write and close temporary file: "
            (ErrBase "no space left on device")), snd C3_sample) /\
  exists evs,
    trace (sys (snd C3_sample)) = (trace (sys sample_frame) ++ evs)%list /\
    occurrences KBodyClose evs =
      match Do gzip_client (sample_url "/data.gz") with
      | Ok _ => occurrences KDo evs
      | Err _ => 0%nat
      end /\
    (forall name,
        In (EvFileClose name) evs ->
        exists f1 tmp,
          acquired full_disk_world "out/data.txt" sample_frame f1 tmp /\
          name = Name tmp) /\
    (forall f1 tmp,
        acquired full_disk_world "out/data.txt" sample_frame f1 tmp ->
        last evs = Some (EvFileClose (Name tmp)) /\
        (1 <= occurrences KFileClose evs <= 2)%nat).
Proof.
  assert (H : Download full_disk_world gzip_client (sample_url "/data.gz")
                "out/data.txt" sample_frame
              = (Err (fmt_Errorf "write and close temporary file: "
                        (ErrBase "no space left on device")), snd C3_sample))
    by (vm_compute; reflexivity).
  split; [exact H|].
  exact (X6_everything_opened_is_closed _ _ _ _ _ _ _ H).
Defined.

(** X7: the temporary file is promoted only when it is complete: a rename
    is attempted only after the copy has read its source to the end and
    written every byte, and after the explicit close that follows it has
    reported no error; it is then the next call, renames the temporary file
    to the destination, and is the only rename of the run. *)
Theorem X7_rename_only_after_flush
        (w : World) (client : Client) (u : URL) (path : string)
        (fr fr' : Frame) (r : result unit) :
  Download w client u path fr = (r, fr') ->
  exists evs,
    trace (sys fr') = (trace (sys fr) ++ evs)%list /\
    (occurrences KRename evs <= 1)%nat /\
    forall old new,
      In (EvRename old new) evs ->
      w_close_err w = None /\
      exists f1 tmp src before after,
        acquired w path fr f1 tmp /\
        old = Name tmp /\ new = path /\
        r_err src = None /\
        copy_result w src = (Ok (List.length (r_data src)), r_data src) /\
        evs = (before ++
               [EvCopy (Name tmp) src; EvFileClose (Name tmp);
                EvRename (Name tmp) path] ++ after)%list.
Proof.
  intros H. each_run H;
    (split; [vm_compute; lia|]);
    intros old new Hin; members Hin;
    (split; [done|]);
    match goal with
    | Hacq : acquired _ _ _ ?f1 ?tmp, Hcopy : copy_result _ ?src = _ |- _ =>
        exists f1, tmp, src
    end;
    match goal with
    | |- exists before after, _ /\ _ /\ _ /\ _ /\ _ /\
           (?a ++ ?b ++ ?c :: ?d :: ?e :: ?rest)%list = _ =>
        exists (a ++ b)%list, rest
    end;
    rewrite <- ?app_assoc; done.
Qed.

(** X7 at a gzip download that succeeds. *)
Lemma X7_witness :
  Download sample_world gzip_client (sample_url "/data.gz")
           "data.txt" sample_frame = (Ok tt, snd C8_sample) /\
  exists evs,
    trace (sys (snd C8_sample)) = (trace (sys sample_frame) ++ evs)%list /\
    (occurrences KRename evs <= 1)%nat /\
    forall old new,
      In (EvRename old new) evs ->
      w_close_err sample_world = None /\
      exists f1 tmp src before after,
        acquired sample_world "data.txt" sample_frame f1 tmp /\
        old = Name tmp /\ new = "data.txt" /\
        r_err src = None /\
        copy_result sample_world src
        = (Ok (List.length (r_data src)), r_data src) /\
        evs = (before ++
               [EvCopy (Name tmp) src; EvFileClose (Name tmp);
                EvRename (Name tmp) "data.txt"] ++ after)%list.
Proof.
  assert (H : Download sample_world gzip_client (sample_url "/data.gz")
                "data.txt" sample_frame = (Ok tt, snd C8_sample))
    by (vm_compute; reflexivity).
  split; [exact H|].
  exact (X7_rename_only_after_flush _ _ _ _ _ _ _ H).
Defined.

(** ** Calls one after another *)

Lemma copy_result_all (w : World) (r : Reader) :
  r_err r = None ->
  (forall n e, w_write_err w = Some (n, e) ->
               (List.length (r_data r) <= n)%nat) ->
  copy_result w r = (Ok (List.length (r_data r)), r_data r).
Proof.
  intros Heof Hwrite. unfold copy_result. rewrite Heof.
  destruct (w_write_err w) as [[n e]|]; [|done].
  specialize (Hwrite n e eq_refl).
  by replace (n <? List.length (r_data r))%nat with false
    by (symmetry; apply Nat.ltb_ge; lia).
Qed.

Lemma copy_result_ok (w : World) (r : Reader) (n : nat) (written : list byte) :
  copy_result w r = (Ok n, written) ->
  forall k e, w_write_err w = Some (k, e) ->
              (List.length (r_data r) <= k)%nat.
Proof.
  unfold copy_result. intros H k e Hw. rewrite Hw in H.
  destruct (Nat.ltb_spec k (List.length (r_data r))); [done|lia].
Qed.

Lemma rename_created (w : World) (old new : string) (c : list byte) (f : FS) :
  f !! at_path w old = None ->
  w_rename_err w = None ->
  is_dir f (at_path w new) = false ->
  is_dir f (removelast (at_path w new)) = true ->
  rename_file w old new (<[at_path w old := Regular c]> f) =
  (Ok tt, <[at_path w new := Regular c]> f).
Proof.
  intros Hfresh Hrename Hdest Hparent. unfold rename_file.
  fold (at_path w old). fold (at_path w new).
  rewrite lookup_insert_eq, !is_dir_insert_fresh by done.
  rewrite Hdest, Hparent, Hrename. cbn.
  by rewrite delete_insert_eq, delete_id.
Qed.

Lemma rename_file_ok (w : World) (old new : string) (f f2 : FS) :
  rename_file w old new f = (Ok tt, f2) ->
  w_rename_err w = None /\
  is_dir f (at_path w new) = false /\
  is_dir f (removelast (at_path w new)) = true.
Proof.
  unfold rename_file, at_path. intros H.
  repeat case_match; simplify_eq. split; [done|]. split; [done|].
  by apply negb_false_iff.
Qed.

Lemma Done_Download
      (w : World) (client : Client) (u : URL) (path : string)
      (fr fr' : Frame) :
  Done w client u path fr fr' -> Download w client u path fr = (Ok tt, fr').
Proof.
  intros Hdone. destruct (Download w client u path fr) as [r0 fr0] eqn:H.
  apply Download_cases in H. destruct r0 as [[]|e].
  - inversion Hdone; inversion H; subst; agree. done.
  - destruct H as [s H]. destruct (Run_not_Done _ _ _ _ _ _ _ _ _ H Hdone).
Qed.

(** Directory preparation that has succeeded succeeds again, and changes
    nothing, on any file system that has a directory wherever the first
    result has one, whatever the system would then refuse. *)
Lemma mkdir_walk_stable (w w2 : World) (perm : Z) (names cur : list string)
      (f f1 g : FS) :
  mkdir_walk w perm cur names f = (Ok tt, f1) ->
  (forall l p, f1 !! l = Some (Directory p) ->
               exists p', g !! l = Some (Directory p')) ->
  mkdir_walk w2 perm cur names g = (Ok tt, g).
Proof.
  revert cur f; induction names as [|name rest IH]; intros cur f H Hg;
    cbn in H |- *; [done|].
  destruct (String.eqb name EmptyString); [by eapply IH|].
  destruct (String.eqb name "."); [by eapply IH|].
  destruct (String.eqb name ".."); [by eapply IH|].
  assert (Hthere : exists p, f1 !! (cur ++ [name])%list = Some (Directory p)).
  { destruct (f !! (cur ++ [name])%list) as [[p|c]|] eqn:Hhere; [|done|].
    - pose proof (mkdir_walk_grows _ _ _ _ _ _ _ H (cur ++ [name])%list) as Hk.
      rewrite Hhere in Hk. eauto.
    - destruct (w_mkdir_err w (cur ++ [name])%list); [done|].
      pose proof (mkdir_walk_grows _ _ _ _ _ _ _ H (cur ++ [name])%list) as Hk.
      rewrite lookup_insert_eq in Hk. eauto. }
  destruct Hthere as [p Hp]. destruct (Hg _ _ Hp) as [p' ->].
  destruct (f !! (cur ++ [name])%list) as [[q|c]|]; [by eapply IH|done|].
  destruct (w_mkdir_err w (cur ++ [name])%list); [done|]. by eapply IH.
Qed.

Lemma is_dir_false_lookup (f : FS) (l : list string) (p : Z) :
  is_dir f l = false -> f !! l = Some (Directory p) -> False.
Proof.
  unfold is_dir. destruct l; [done|]. intros H E. by rewrite E in H.
Qed.

Lemma removelast_shorter {A : Type} (l : list A) :
  l <> [] -> removelast l <> l.
Proof.
  intros Hl E. apply (f_equal List.length) in E.
  destruct l as [|x l _] using rev_ind; [done|].
  rewrite removelast_last, length_app in E. cbn in E. lia.
Qed.

(** What a call that returned success leaves for the next call to the same
    destination, in a world with the same working directory: the directory
    is prepared, and the destination is a regular file in a directory. *)
Lemma prepared_again
      (w w2 : World) (client : Client) (u : URL) (path : string)
      (fr fr1 : Frame) :
  Download w client u path fr = (Ok tt, fr1) ->
  w_cwd w2 = w_cwd w ->
  mkdir_all w2 (dir_of path) mode_0o755 (fs (sys fr1))
  = (Ok tt, fs (sys fr1)) /\
  is_dir (fs (sys fr1)) (at_path w2 path) = false /\
  is_dir (fs (sys fr1)) (removelast (at_path w2 path)) = true.
Proof.
  intros H%Download_cases Hcwd.
  destruct H as
    [f1 tmp resp evs r Hacq Hreq Hdo Hdec Hcopy Heof Hclose Hren Hdir Hne].
  pose proof Hacq as (Hmk & Htmp & Hfresh).
  apply rename_file_ok in Hren as (_ & _ & Hparent).
  rewrite is_dir_insert_fresh in Hparent by done.
  assert (Hdest : at_path w path <> []).
  { intros E. by rewrite E in Hdir. }
  assert (Hsame : at_path w2 path = at_path w path).
  { unfold at_path. by rewrite Hcwd. }
  rewrite Hsame. cbn [leave sys fs]. split; [|split].
  - unfold mkdir_all. rewrite Hcwd.
    eapply mkdir_walk_stable; [exact Hmk|].
    intros l p Hl. exists p. rewrite lookup_insert_ne; [done|].
    intros E. subst l. exact (is_dir_false_lookup _ _ _ Hdir Hl).
  - unfold is_dir. rewrite lookup_insert_eq. by destruct (at_path w path).
  - rewrite is_dir_insert_other; [done|].
    intros E. symmetry in E. by apply removelast_shorter in E.
Qed.

(** X8: a second call for a destination the first call has written
    replaces the file.  After a [Download] that returned success, and
    whatever the system would then refuse to [os.MkdirAll], a [Decompress]
    to the same path, from the same working directory, returns success
    whenever its own temporary file can be created, its request is built
    and answered, the reader of the selected decoder is made and ends
    without error, no write fails before its last byte, and closing and
    renaming are not refused; the destination then holds what the second
    call read, and everything else is as the first call left it. *)
Theorem X8_second_call_replaces
        (w w2 : World) (c1 c2 : Client) (u1 u2 : URL) (path : string)
        (fr fr1 : Frame) (tmp2 : os_File) (resp : Response) (d : decoder)
        (r : Reader) :
  Download w c1 u1 path fr = (Ok tt, fr1) ->
  w_cwd w2 = w_cwd w ->
  fst (create_temp w2 (dir_of path) (base_of path) (fs (sys fr1))) = Ok tmp2 ->
  w_newRequest_err w2 u2 = None ->
  Do c2 u2 = Ok resp ->
  selected (Path u2) d ->
  snd (open_reader w2 d (Body resp)) = Ok r ->
  r_err r = None ->
  (forall n e, w_write_err w2 = Some (n, e) ->
               (List.length (r_data r) <= n)%nat) ->
  w_close_err w2 = None ->
  w_rename_err w2 = None ->
  exists fr2,
    Decompress w2 c2 u2 path fr1 = (Ok tt, fr2) /\
    fs (sys fr2) !! at_path w path = Some (Regular (r_data r)) /\
    forall l, l <> at_path w path -> fs (sys fr2) !! l = fs (sys fr1) !! l.
Proof.
  intros H Hcwd Htmp Hreq Hdo Hd Hopen Heof Hwrite Hclose Hrename.
  destruct (prepared_again _ w2 _ _ _ _ _ H Hcwd) as (Hmk & Hdest & Hparent).
  assert (Hsame : at_path w2 path = at_path w path).
  { unfold at_path. by rewrite Hcwd. }
  destruct (create_temp w2 (dir_of path) (base_of path) (fs (sys fr1)))
    as [rt f2] eqn:Hct. cbn in Htmp. subst rt.
  pose proof (create_temp_inv _ _ _ _ _ Hct) as (Hfresh & -> & Hne & _).
  assert (Hacq : acquired w2 path fr1 (fs (sys fr1)) tmp2) by done.
  destruct (open_reader w2 d (Body resp)) as [evs ro] eqn:Hdec.
  cbn in Hopen. subst ro.
  rewrite <- (selected_decoder_stage w2 u2 _ d Hd) in Hdec.
  eexists. split.
  - apply Done_Download.
    eapply Done_ok; eauto using copy_result_all, rename_created.
  - cbn [leave sys fs]. rewrite <- Hsame.
    split; [apply lookup_insert_eq|].
    intros l Hl. by rewrite lookup_insert_ne.
Qed.

(** X8 at a gzip download followed, for the same destination and in a
    world that draws another number for the temporary file, by the download
    of a plain body. *)
Lemma X8_witness :
  Download sample_world gzip_client (sample_url "/data.gz")
           "./out/data.txt" sample_frame = (Ok tt, snd C1_sample) /\
  fs (sys (snd C1_sample)) !! at_path sample_world "./out/data.txt"
  = Some (Regular hello) /\
  exists fr2,
    Decompress later_world not_gzip (sample_url "/report")
               "./out/data.txt" (snd C1_sample) = (Ok tt, fr2) /\
    fs (sys fr2) !! at_path sample_world "./out/data.txt"
    = Some (Regular page) /\
    forall l,
      l <> at_path sample_world "./out/data.txt" ->
      fs (sys fr2) !! l = fs (sys (snd C1_sample)) !! l.
Proof.
  assert (H : Download sample_world gzip_client (sample_url "/data.gz")
                "./out/data.txt" sample_frame = (Ok tt, snd C1_sample))
    by (vm_compute; reflexivity).
  assert (Htmp : fst (create_temp later_world (dir_of "./out/data.txt")
                        (base_of "./out/data.txt") (fs (sys (snd C1_sample))))
                 = Ok (mkFile "./out/data.txt987654321"))
    by (vm_compute; reflexivity).
  split; [exact H|]. split; [vm_compute; reflexivity|].
  apply (X8_second_call_replaces sample_world later_world gzip_client not_gzip
           (sample_url "/data.gz") (sample_url "/report") "./out/data.txt"
           sample_frame (snd C1_sample) (mkFile "./out/data.txt987654321")
           (mkResponse 200 (mkReader page None)) Identity
           (mkReader page None)
           H eq_refl Htmp eq_refl eq_refl selected_none eq_refl eq_refl).
  - discriminate.
  - reflexivity.
  - reflexivity.
Defined.

(** A call depends on the frame it starts in only through the file system
    directory preparation makes of it. *)
Lemma Download_from_prepared
      (w : World) (client : Client) (u : URL) (path : string)
      (fr fr2 : Frame) (f1 : FS) :
  mkdir_all w (dir_of path) mode_0o755 (fs (sys fr)) = (Ok tt, f1) ->
  mkdir_all w (dir_of path) mode_0o755 (fs (sys fr2)) = (Ok tt, f1) ->
  fst (Download w client u path fr2) = fst (Download w client u path fr) /\
  fs (sys (snd (Download w client u path fr2))) =
  fs (sys (snd (Download w client u path fr))).
Proof.
  intros Hmk Hmk2.
  assert (Hacq : forall f tmp,
             acquired w path fr f tmp -> acquired w path fr2 f tmp).
  { intros f tmp (Hm & Ht & Hf). rewrite Hmk in Hm. injection Hm as <-.
    done. }
  destruct (Download w client u path fr) as [r fr'] eqn:H.
  apply Download_cases in H. destruct r as [[]|e].
  - inversion H; subst.
    eassert (Hagain : Done w client u path fr2 _) by (econstructor; eauto).
    by rewrite (Done_Download _ _ _ _ _ _ Hagain).
  - destruct H as [s H].
    inversion H; subst; try congruence;
      match type of H with
      | Run _ _ _ _ _ ?s0 ?r0 _ =>
          eassert (Hagain : Run w client u path fr2 s0 r0 _)
            by (econstructor; eauto; congruence)
      end;
      rewrite (Run_Download _ _ _ _ _ _ _ _ Hagain); cbn; split; congruence.
Qed.

(** X9: a call that failed after directory preparation, and whose
    temporary file the system did not refuse to unlink, has no effect on
    what comes next: whatever is called afterwards for the same
    destination, by either function, returns what [Download] would have
    returned in place of the failed call, and leaves the same file
    system. *)
Theorem X9_failure_does_not_linger
        (w : World) (c c' : Client) (u u' : URL) (path : string)
        (fr fr1 : Frame) (e : error) :
  Download w c u path fr = (Err e, fr1) ->
  fst (mkdir_all w (dir_of path) mode_0o755 (fs (sys fr))) = Ok tt ->
  w_remove_err w = None ->
  fst (Decompress w c' u' path fr1) = fst (Download w c' u' path fr) /\
  fs (sys (snd (Decompress w c' u' path fr1))) =
  fs (sys (snd (Download w c' u' path fr))).
Proof.
  intros H Hok Hrm.
  destruct (mkdir_all w (dir_of path) mode_0o755 (fs (sys fr)))
    as [r0 f1] eqn:Hmk. cbn in Hok. subst r0.
  apply Download_cases in H. destruct H as [s Hrun].
  pose proof (Run_fs_removed _ _ _ _ _ _ _ _ Hrm Hrun) as Hfs.
  rewrite Hmk in Hfs. cbn in Hfs.
  apply (Download_from_prepared w c' u' path fr fr1 f1 Hmk).
  rewrite Hfs. eapply mkdir_walk_stable; [exact Hmk|]. eauto.
Qed.

(** X9 at a download that fails because the server cannot be reached,
    followed by one from a server that answers. *)
Lemma X9_witness :
  Download sample_world unreachable (sample_url "/data.gz")
           "./out/data.txt" sample_frame
  = (Err (ErrBase "connection refused"), snd C10_sample) /\
  w_remove_err sample_world = None /\
  fst (Decompress sample_world gzip_client (sample_url "/data.gz")
         "./out/data.txt" (snd C10_sample))
  = fst (Download sample_world gzip_client (sample_url "/data.gz")
           "./out/data.txt" sample_frame) /\
  fs (sys (snd (Decompress sample_world gzip_client (sample_url "/data.gz")
                  "./out/data.txt" (snd C10_sample))))
  = fs (sys (snd (Download sample_world gzip_client (sample_url "/data.gz")
                    "./out/data.txt" sample_frame))).
Proof.
  assert (H : Download sample_world unreachable (sample_url "/data.gz")
                "./out/data.txt" sample_frame
              = (Err (ErrBase "connection refused"), snd C10_sample))
    by (vm_compute; reflexivity).
  assert (Hmk : fst (mkdir_all sample_world (dir_of "./out/data.txt")
                       mode_0o755 (fs (sys sample_frame))) = Ok tt)
    by (vm_compute; reflexivity).
  assert (Hrm : w_remove_err sample_world = None) by reflexivity.
  split; [exact H|]. split; [exact Hrm|].
  exact (X9_failure_does_not_linger sample_world unreachable gzip_client
           (sample_url "/data.gz") (sample_url "/data.gz") "./out/data.txt"
           sample_frame (snd C10_sample) _ H Hmk Hrm).
Defined.

(** ** The name of the temporary file *)

Lemma cut_last_star_last (b : string) :
  match cut_last_star b with
  | Some (_, s) => mem "*" s = false
  | None => mem "*" b = false
  end.
Proof.
  induction b as [|c b IH]; [done|]. cbn [cut_last_star].
  destruct (cut_last_star b) as [[p s]|]; [done|].
  cbn [mem]. destruct (Ascii.eqb_spec c "*") as [->|Hc]; [done|].
  by rewrite IH.
Qed.

(** X10: the temporary file is named after the destination: its name is
    the destination's directory joined with the base name followed by a
    non-empty run of decimal digits, or, when the base name contains ["*"],
    with the base name whose last ["*"] is replaced by those digits. *)
Theorem X10_temporary_name
        (w : World) (path : string) (fr : Frame) (f1 : FS) (tmp : os_File) :
  acquired w path fr f1 tmp ->
  exists front back rnd,
    Name tmp = joinPath (dir_of path) (front ++ rnd ++ back) /\
    rnd <> EmptyString /\ digits rnd = true /\
    mem "*" back = false /\
    (base_of path = front ++ "*" ++ back \/
     (base_of path = front /\ back = EmptyString /\
      mem "*" (base_of path) = false)).
Proof.
  intros (_ & Htmp & _). unfold create_temp in Htmp.
  destruct (String.eqb_spec (dir_of path) EmptyString) as [E|_];
    [by apply dir_of_nonempty in E|].
  destruct (Split_spec path) as (_ & Hbase & _). fold (base_of path) in Hbase.
  unfold prefixAndSuffix in Htmp. rewrite Hbase in Htmp.
  pose proof (cut_last_star_last (base_of path)) as Hlast.
  destruct (nextRandom_digits w) as (c & rest & Hrnd & Hc & Hrest).
  assert (Hdigits : digits (nextRandom w) = true)
    by (rewrite Hrnd; cbn; by rewrite Hc, Hrest).
  assert (Hsome : nextRandom w <> EmptyString) by (by rewrite Hrnd).
  destruct (cut_last_star (base_of path)) as [[p s]|] eqn:Hcut;
    apply open_excl_inv in Htmp as (Hname & _);
    rewrite joinPath_app in Hname.
  - exists p, s, (nextRandom w). apply cut_last_star_spec in Hcut. auto 10.
  - exists (base_of path), EmptyString, (nextRandom w). auto 10.
Qed.

(** X10 at the destination ["out/data.txt"]. *)
Lemma X10_witness :
  acquired sample_world "out/data.txt" sample_frame out_prepared out_tmp /\
  exists front back rnd,
    Name out_tmp = joinPath (dir_of "out/data.txt") (front ++ rnd ++ back) /\
    rnd <> EmptyString /\ digits rnd = true /\
    mem "*" back = false /\
    (base_of "out/data.txt" = front ++ "*" ++ back \/
     (base_of "out/data.txt" = front /\ back = EmptyString /\
      mem "*" (base_of "out/data.txt") = false)).
Proof.
  assert (H : acquired sample_world "out/data.txt" sample_frame
                out_prepared out_tmp)
    by (unfold acquired; repeat split; vm_compute; reflexivity).
  split; [exact H|].
  exact (X10_temporary_name _ _ _ _ _ H).
Defined.

(** ** Where the bytes go *)

(** X11: the destination is never written in place: every byte the call
    copies goes to the temporary file, whose location is not the
    destination's and held nothing before the call. *)
Theorem X11_bytes_go_to_a_fresh_file
        (w : World) (client : Client) (u : URL) (path : string)
        (fr fr' : Frame) (r : result unit) :
  Download w client u path fr = (r, fr') ->
  exists evs,
    trace (sys fr') = (trace (sys fr) ++ evs)%list /\
    forall dst src,
      In (EvCopy dst src) evs ->
      exists f1 tmp,
        acquired w path fr f1 tmp /\ dst = Name tmp /\
        at_path w (Name tmp) <> at_path w path /\
        fs (sys fr) !! at_path w (Name tmp) = None.
Proof.
  intros H. each_run H;
    intros dst src Hin; members Hin;
    match goal with
    | Hacq : acquired _ _ _ ?f1 ?tmp |- _ =>
        exists f1, tmp; destruct (acquired_fresh _ _ _ _ _ Hacq); done
    end.
Qed.

(** X11 at a gzip download that succeeds. *)
Lemma X11_witness :
  Download sample_world gzip_client (sample_url "/blobzgz")
           "data.txt" sample_frame = (Ok tt, snd C4_sample) /\
  exists evs,
    trace (sys (snd C4_sample)) = (trace (sys sample_frame) ++ evs)%list /\
    forall dst src,
      In (EvCopy dst src) evs ->
      exists f1 tmp,
        acquired sample_world "data.txt" sample_frame f1 tmp /\
        dst = Name tmp /\
        at_path sample_world (Name tmp) <> at_path sample_world "data.txt" /\
        fs (sys sample_frame) !! at_path sample_world (Name tmp) = None.
Proof.
  assert (H : Download sample_world gzip_client (sample_url "/blobzgz")
                "data.txt" sample_frame = (Ok tt, snd C4_sample))
    by (vm_compute; reflexivity).
  split; [exact H|].
  exact (X11_bytes_go_to_a_fresh_file _ _ _ _ _ _ _ H).
Defined.

(** X12: a directory is never replaced: when the destination names an
    existing directory the call returns an error, and the directory is
    still there. *)
Theorem X12_directory_never_replaced
        (w : World) (client : Client) (u : URL) (path : string)
        (fr fr' : Frame) (r : result unit) (p : Z) :
  fs (sys fr) !! at_path w path = Some (Directory p) ->
  Download w client u path fr = (r, fr') ->
  (exists e, r = Err e) /\
  fs (sys fr') !! at_path w path = Some (Directory p).
Proof.
  intros Hd H.
  assert (Hkept : snd (mkdir_all w (dir_of path) mode_0o755 (fs (sys fr)))
                    !! at_path w path = Some (Directory p)).
  { destruct (mkdir_all w (dir_of path) mode_0o755 (fs (sys fr)))
      as [r0 f1] eqn:Hmk.
    pose proof (mkdir_walk_grows _ _ _ _ _ _ _ Hmk (at_path w path)) as Hk.
    by rewrite Hd in Hk. }
  apply Download_cases in H. destruct r as [[]|e].
  - exfalso.
    destruct H as [f1 tmp resp evs r (Hmk & _) _ _ _ _ _ _ _ Hdir _].
    rewrite Hmk in Hkept. exact (is_dir_false_lookup _ _ _ Hdir Hkept).
  - split; [by exists e|]. destruct H as [s Hrun].
    by rewrite (Run_fs_dest _ _ _ _ _ _ _ _ Hrun).
Qed.

(** X12 at a destination that names the working directory. *)
Lemma X12_witness :
  fs (sys sample_frame) !! at_path sample_world "/home/u"
  = Some (Directory mode_0o755) /\
  (exists e,
      fst (Download sample_world gzip_client (sample_url "/data.gz")
             "/home/u" sample_frame) = Err e) /\
  fs (sys (snd (Download sample_world gzip_client (sample_url "/data.gz")
                  "/home/u" sample_frame)))
    !! at_path sample_world "/home/u"
  = Some (Directory mode_0o755).
Proof.
  assert (Hd : fs (sys sample_frame) !! at_path sample_world "/home/u"
               = Some (Directory mode_0o755))
    by (vm_compute; reflexivity).
  split; [exact Hd|].
  exact (X12_directory_never_replaced sample_world gzip_client
           (sample_url "/data.gz") "/home/u" sample_frame _ _ _ Hd
           (surjective_pairing _)).
Defined.

(** ** Success *)

(** X13: when a call returns success, exactly: the directory could be
    prepared and the temporary file created, the request could be built and
    was answered, the reader of the decoder the URL selects could be made
    and ended without error, no write failed before its last byte, closing
    and renaming were not refused, and the destination names no directory
    and lies in one. *)
Theorem X13_success_exactly_when
        (w : World) (client : Client) (u : URL) (path : string) (fr : Frame) :
  (exists fr', Download w client u path fr = (Ok tt, fr')) <->
  exists f1 tmp resp d r,
    acquired w path fr f1 tmp /\
    w_newRequest_err w u = None /\
    Do client u = Ok resp /\
    selected (Path u) d /\
    snd (open_reader w d (Body resp)) = Ok r /\
    r_err r = None /\
    (forall n e, w_write_err w = Some (n, e) ->
                 (List.length (r_data r) <= n)%nat) /\
    w_close_err w = None /\
    w_rename_err w = None /\
    is_dir f1 (at_path w path) = false /\
    is_dir f1 (removelast (at_path w path)) = true.
Proof.
  split.
  - intros [fr' H%Download_cases].
    destruct H as
      [f1 tmp resp evs r Hacq Hreq Hdo Hdec Hcopy Heof Hclose Hren Hdir Hne].
    destruct (selected_total (Path u)) as [d Hd].
    rewrite (selected_decoder_stage w u _ d Hd) in Hdec.
    apply rename_file_ok in Hren as (Hrename & _ & Hparent).
    rewrite is_dir_insert_fresh in Hparent by apply Hacq.
    exists f1, tmp, resp, d, r. rewrite Hdec.
    eauto 15 using copy_result_ok.
  - intros (f1 & tmp & resp & d & r & Hacq & Hreq & Hdo & Hd & Hopen & Heof
            & Hwrite & Hclose & Hrename & Hdest & Hparent).
    destruct (open_reader w d (Body resp)) as [evs ro] eqn:Hdec.
    cbn in Hopen. subst ro.
    rewrite <- (selected_decoder_stage w u _ d Hd) in Hdec.
    pose proof Hacq as (_ & Htmp & Hfresh).
    apply create_temp_inv in Htmp as (_ & _ & Hne & _).
    eexists. apply Done_Download.
    eapply Done_ok; eauto using copy_result_all, rename_created.
Qed.

(** X13 at a server that answers with a plain body. *)
Lemma X13_witness :
  acquired sample_world "out/data.txt" sample_frame out_prepared out_tmp /\
  exists fr',
    Download sample_world failing_server (sample_url "/report")
             "out/data.txt" sample_frame = (Ok tt, fr').
Proof.
  assert (H : acquired sample_world "out/data.txt" sample_frame
                out_prepared out_tmp)
    by (unfold acquired; repeat split; vm_compute; reflexivity).
  split; [exact H|].
  apply (proj2 (X13_success_exactly_when sample_world failing_server
                  (sample_url "/report") "out/data.txt" sample_frame)).
  exists out_prepared, out_tmp, (mkResponse 500 (mkReader hello None)),
    Identity, (mkReader hello None).
  split; [exact H|]. split; [reflexivity|]. split; [reflexivity|].
  split; [exact selected_none|]. split; [reflexivity|].
  split; [reflexivity|]. split; [discriminate|].
  split; [reflexivity|]. split; [reflexivity|].
  split; vm_compute; reflexivity.
Defined.
